(** * bitnet_mqtt_device: identity, session and response policy

    A shallow embedding of [src/bitnet_mqtt_device.py]: the enrollment
    client ([DeviceRegistration]), the certificate store
    ([CertificateManager]), the wire message ([MqttMessage]) and the
    session and policy methods of [BitNetMqttDevice].

    Conventions of the embedding.
    - A Python [dict] with string keys is a [gmap string _]; values that
      come off the wire or out of an HTTP body are [json] values.
    - A method is a computation in the monad [M]: it threads the [World]
      (the attributes of the device object, the file system, the log and
      the broker's outbox) and either returns or raises.  State written
      before a [raise] stays written, as in Python.
    - What the environment decides during one call (clock, UUID, random
      draw, HTTP replies, transport results) is the [Env] argument.
    - A [datetime] is a number of microseconds; a float is the rational it
      denotes.  Strings are byte strings: [lower] folds ASCII letters. *)

From Stdlib Require Import QArith Ascii.
From stdpp Require Import gmap strings list fin_maps pretty.
Close Scope Q_scope.

Set Warnings "-register-all".

(** ** Python values *)

Inductive json : Type :=
  | JNull
  | JBool (b : bool)
  | JInt (n : Z)
  | JFloat (q : Q)
  | JStr (s : string)
  | JArr (l : list json)
  | JObj (m : gmap string json).

Inductive exn : Type :=
  | KeyError
  | TypeError
  | AttributeError
  | ValueError
  | JSONDecodeError
  | UnicodeDecodeError
  | OSError
  | RequestException.

Inductive result (A : Type) : Type :=
  | Ok (a : A)
  | Raise (e : exn).
Arguments Ok {A} a.
Arguments Raise {A} e.

Definition datetime := Z.

(** [timedelta(days=n)] in microseconds. *)
Definition timedelta_days (n : Z) : Z := (n * 86400 * 1000000)%Z.
Definition timedelta_seconds (n : Z) : Z := (n * 1000000)%Z.

(** *** Strings *)

Definition lower_ascii (c : ascii) : ascii :=
  let n := N_of_ascii c in
  if ((65 <=? n) && (n <=? 90))%N then ascii_of_N (n + 32) else c.

Fixpoint lower (s : string) : string :=
  match s with
  | EmptyString => EmptyString
  | String c s' => String (lower_ascii c) (lower s')
  end.

(** [needle in hay] on two [str]. *)
Fixpoint str_contains (needle hay : string) : bool :=
  String.prefix needle hay ||
  match hay with
  | EmptyString => false
  | String _ hay' => str_contains needle hay'
  end.

Fixpoint str_take (n : nat) (s : string) : string :=
  match n, s with
  | S n', String c s' => String c (str_take n' s')
  | _, _ => EmptyString
  end.

(** [s.replace('Z', '+00:00')]. *)
Fixpoint replace_Z (s : string) : string :=
  match s with
  | EmptyString => EmptyString
  | String c s' =>
      if Ascii.eqb c "Z"%char then "+00:00" +:+ replace_Z s'
      else String c (replace_Z s')
  end.

(** *** Operators on values of unknown type *)

(** [j == s] for a [str] [s]. *)
Definition py_eq_str (j : json) (s : string) : bool :=
  match j with
  | JStr s' => String.eqb s' s
  | _ => false
  end.

(** [j in l] for a list of [str]. *)
Definition py_in_strs (j : json) (l : list string) : bool :=
  existsb (py_eq_str j) l.

(** [j[k]] for a [str] key: only a dict can be indexed by a string. *)
Definition subscript (j : json) (k : string) : result json :=
  match j with
  | JObj m => match m !! k with
              | Some v => Ok v
              | None => Raise KeyError
              end
  | _ => Raise TypeError
  end.

(** [k in j] for a [str] [k]: key of a dict, element of a list, substring
    of a string; numbers, booleans and [None] are not containers. *)
Definition contains (k : string) (j : json) : result bool :=
  match j with
  | JObj m => Ok (bool_decide (is_Some (m !! k)))
  | JArr l => Ok (existsb (fun x => py_eq_str x k) l)
  | JStr s => Ok (str_contains k s)
  | _ => Raise TypeError
  end.

(** [j.get(k, d)]: only a dict has [get]. *)
Definition dict_get (j : json) (k : string) (d : json) : result json :=
  match j with
  | JObj m => Ok (default d (m !! k))
  | _ => Raise AttributeError
  end.

(** [j[:n]]: strings and lists can be sliced; a dict, a number, a boolean
    and [None] cannot (for a dict the exception is a [KeyError] from
    Python 3.12 on; nothing below depends on which of the two it is). *)
Definition slice_to (j : json) (n : nat) : result json :=
  match j with
  | JStr s => Ok (JStr (str_take n s))
  | JArr l => Ok (JArr (take n l))
  | _ => Raise TypeError
  end.

(** [j.lower()]: only a [str] has [lower]. *)
Definition py_lower (j : json) : result string :=
  match j with
  | JStr s => Ok (lower s)
  | _ => Raise AttributeError
  end.

(** [not d] for an optional dict: [None] and the empty dict are falsy. *)
Definition falsy_dict {V} (d : option (gmap string V)) : bool :=
  match d with
  | None => true
  | Some m => bool_decide (size m = 0)
  end.

(** ** Configuration

    The configuration dict, read with [config.get(key, default)]: a key
    that may be absent is an [option] field, and the default is written
    at the place of use, as in the source. *)

Record ResponseCriteria : Type := {
  message_types : option (list string);
  content_filters : option (list string);
  probability : option Q;
  default_respond : option bool
}.

(** [config.get('response_criteria', {})] when the key is absent. *)
Definition empty_criteria : ResponseCriteria :=
  {| message_types := None; content_filters := None;
     probability := None; default_respond := None |}.

Record MqttConfig : Type := {
  broker : string;
  port : option Z;
  topic : string;
  keepalive : option Z;
  use_tls : option bool
}.

Record Config : Type := {
  cfg_device_id : option string;
  cfg_bitnet_path : option string;
  cfg_cert_dir : option string;
  cfg_cert_service_url : option string;
  cfg_device_type : option string;
  cfg_capabilities : option (list string);
  cfg_location : option string;
  cfg_description : option string;
  cfg_client_name : option string;
  cfg_auth_name : option string;
  cfg_mqtt : MqttConfig;
  cfg_response_criteria : option ResponseCriteria
}.

(** ** Messages, transport, files *)

Record MqttMessage : Type := {
  msg_id : json;
  msg_device_id : json;
  msg_content : json;
  msg_timestamp : datetime;
  msg_message_type : json
}.

(** The [paho] client object, as far as the device looks at it. *)
Record MqttClient : Type := {
  client_id : string;
  username_pw : option (string * string);
  tls_context : bool;
  transport_connected : bool;
  subscriptions : list string;
  loop_running : bool
}.

Inductive node : Type :=
  | Dir
  | File (data : string) (mode : Z) (readable : bool).

Inductive level : Type := DEBUG | INFO | WARNING | ERROR.

Record Response : Type := {
  status_code : Z;
  text : string;
  json_body : option json   (* [None]: [response.json()] raises *)
}.

(** What the payload of an inbound packet turns out to be under
    [msg.payload.decode()] and [json.loads]. *)
Inductive wire : Type :=
  | NotUnicode
  | NotJson
  | Json (payload : json).

(** The environment's answers during one call. *)
Record Env : Type := {
  utcnow : datetime;
  now : datetime;
  uuid4 : string;
  random : Q;
  post_register : option Response;   (* [None]: [requests.post] raises *)
  get_ca : option Response;          (* [None]: [requests.get] raises *)
  write_fails : string -> bool;
  load_cert_chain_ok : bool;
  connect_ok : bool
}.

(** ** The world *)

Record World : Type := {
  (* BitNetMqttDevice *)
  config : Config;
  device_id : string;
  running : bool;
  mqtt_client : option MqttClient;
  message_history : list MqttMessage;
  is_connected : bool;
  join_message_sent : bool;
  (* CertificateManager *)
  cert_dir : string;
  (* DeviceRegistration *)
  service_url : string;
  device_config : gmap string json;
  (* BitNetInference *)
  bitnet_path : string;
  (* outside the process *)
  fs : gmap string node;
  log : list (level * string);
  outbox : list (string * MqttMessage);
  workers : list MqttMessage          (* response threads started *)
}.

Definition set_running (v : bool) (w : World) : World :=
  {| config := config w; device_id := device_id w; running := v;
     mqtt_client := mqtt_client w; message_history := message_history w;
     is_connected := is_connected w; join_message_sent := join_message_sent w;
     cert_dir := cert_dir w; service_url := service_url w;
     device_config := device_config w; bitnet_path := bitnet_path w;
     fs := fs w; log := log w; outbox := outbox w; workers := workers w |}.

Definition set_mqtt_client (v : option MqttClient) (w : World) : World :=
  {| config := config w; device_id := device_id w; running := running w;
     mqtt_client := v; message_history := message_history w;
     is_connected := is_connected w; join_message_sent := join_message_sent w;
     cert_dir := cert_dir w; service_url := service_url w;
     device_config := device_config w; bitnet_path := bitnet_path w;
     fs := fs w; log := log w; outbox := outbox w; workers := workers w |}.

Definition set_message_history (v : list MqttMessage) (w : World) : World :=
  {| config := config w; device_id := device_id w; running := running w;
     mqtt_client := mqtt_client w; message_history := v;
     is_connected := is_connected w; join_message_sent := join_message_sent w;
     cert_dir := cert_dir w; service_url := service_url w;
     device_config := device_config w; bitnet_path := bitnet_path w;
     fs := fs w; log := log w; outbox := outbox w; workers := workers w |}.

Definition set_is_connected (v : bool) (w : World) : World :=
  {| config := config w; device_id := device_id w; running := running w;
     mqtt_client := mqtt_client w; message_history := message_history w;
     is_connected := v; join_message_sent := join_message_sent w;
     cert_dir := cert_dir w; service_url := service_url w;
     device_config := device_config w; bitnet_path := bitnet_path w;
     fs := fs w; log := log w; outbox := outbox w; workers := workers w |}.

Definition set_join_message_sent (v : bool) (w : World) : World :=
  {| config := config w; device_id := device_id w; running := running w;
     mqtt_client := mqtt_client w; message_history := message_history w;
     is_connected := is_connected w; join_message_sent := v;
     cert_dir := cert_dir w; service_url := service_url w;
     device_config := device_config w; bitnet_path := bitnet_path w;
     fs := fs w; log := log w; outbox := outbox w; workers := workers w |}.

Definition set_device_config (v : gmap string json) (w : World) : World :=
  {| config := config w; device_id := device_id w; running := running w;
     mqtt_client := mqtt_client w; message_history := message_history w;
     is_connected := is_connected w; join_message_sent := join_message_sent w;
     cert_dir := cert_dir w; service_url := service_url w;
     device_config := v; bitnet_path := bitnet_path w;
     fs := fs w; log := log w; outbox := outbox w; workers := workers w |}.

Definition set_fs (v : gmap string node) (w : World) : World :=
  {| config := config w; device_id := device_id w; running := running w;
     mqtt_client := mqtt_client w; message_history := message_history w;
     is_connected := is_connected w; join_message_sent := join_message_sent w;
     cert_dir := cert_dir w; service_url := service_url w;
     device_config := device_config w; bitnet_path := bitnet_path w;
     fs := v; log := log w; outbox := outbox w; workers := workers w |}.

Definition set_log (v : list (level * string)) (w : World) : World :=
  {| config := config w; device_id := device_id w; running := running w;
     mqtt_client := mqtt_client w; message_history := message_history w;
     is_connected := is_connected w; join_message_sent := join_message_sent w;
     cert_dir := cert_dir w; service_url := service_url w;
     device_config := device_config w; bitnet_path := bitnet_path w;
     fs := fs w; log := v; outbox := outbox w; workers := workers w |}.

Definition set_outbox (v : list (string * MqttMessage)) (w : World) : World :=
  {| config := config w; device_id := device_id w; running := running w;
     mqtt_client := mqtt_client w; message_history := message_history w;
     is_connected := is_connected w; join_message_sent := join_message_sent w;
     cert_dir := cert_dir w; service_url := service_url w;
     device_config := device_config w; bitnet_path := bitnet_path w;
     fs := fs w; log := log w; outbox := v; workers := workers w |}.

Definition set_workers (v : list MqttMessage) (w : World) : World :=
  {| config := config w; device_id := device_id w; running := running w;
     mqtt_client := mqtt_client w; message_history := message_history w;
     is_connected := is_connected w; join_message_sent := join_message_sent w;
     cert_dir := cert_dir w; service_url := service_url w;
     device_config := device_config w; bitnet_path := bitnet_path w;
     fs := fs w; log := log w; outbox := outbox w; workers := v |}.

(** ** The monad of methods: state, and exceptions that keep the state *)

Definition M (A : Type) : Type := World -> World * result A.

Definition ret {A} (a : A) : M A := fun w => (w, Ok a).

Definition raise {A} (e : exn) : M A := fun w => (w, Raise e).

Definition bind {A B} (m : M A) (k : A -> M B) : M B :=
  fun w =>
    match m w with
    | (w', Ok a) => k a w'
    | (w', Raise e) => (w', Raise e)
    end.

(** [try: m  except Exception as e: h e]. *)
Definition try_except {A} (m : M A) (h : exn -> M A) : M A :=
  fun w =>
    match m w with
    | (w', Ok a) => (w', Ok a)
    | (w', Raise e) => h e w'
    end.

Definition lift {A} (r : result A) : M A := fun w => (w, r).

Definition gets {A} (f : World -> A) : M A := fun w => (w, Ok (f w)).

Definition modify (f : World -> World) : M unit := fun w => (f w, Ok tt).

Declare Scope py_scope.
Delimit Scope py_scope with py.
Notation "x <- m ;; k" := (bind m (fun x => k))
  (at level 100, m at next level, right associativity) : py_scope.
Notation "m ;; k" := (bind m (fun _ => k))
  (at level 100, right associativity) : py_scope.
Open Scope py_scope.

(** [self.logger.<level>(text)]; [text] is the message without its
    interpolated values. *)
Definition logger (l : level) (text : string) : M unit :=
  modify (fun w => set_log (log w ++ [(l, text)]) w).

Definition when (b : bool) (m : M unit) : M unit :=
  if b then m else ret tt.

(** The same sequencing for computations that only return or raise. *)
Definition rbind {A B} (r : result A) (k : A -> result B) : result B :=
  match r with
  | Ok a => k a
  | Raise e => Raise e
  end.
Notation "x <-? r ;; k" := (rbind r (fun x => k))
  (at level 100, r at next level, right associativity) : py_scope.

(** ** File system *)

(** [Path.exists()]. *)
Definition path_exists (p : string) : M bool :=
  gets (fun w => bool_decide (is_Some (fs w !! p))).

(** [Path.read_bytes()]. *)
Definition read_bytes (p : string) : M string :=
  w <- gets fs ;;
  match w !! p with
  | Some (File data _ true) => ret data
  | _ => raise OSError
  end.

(** [Path.write_text(v)]: the argument must be a [str]; the write itself
    fails when the environment says so or the path is a directory. *)
Definition write_text (env : Env) (p : string) (v : json) : M unit :=
  match v with
  | JStr s =>
      w <- gets fs ;;
      if write_fails env p then raise OSError
      else match w !! p with
           | Some Dir => raise OSError
           | Some (File _ mode r) => modify (fun w => set_fs (<[p := File s mode r]> (fs w)) w)
           | None => modify (fun w => set_fs (<[p := File s 420 true]> (fs w)) w)
           end
  | _ => raise TypeError
  end.

(** [Path.chmod(mode)]. *)
Definition chmod (p : string) (mode : Z) : M unit :=
  w <- gets fs ;;
  match w !! p with
  | Some (File data _ r) => modify (fun w => set_fs (<[p := File data mode r]> (fs w)) w)
  | Some Dir => ret tt
  | None => raise OSError
  end.

(** [dir / name]. *)
Definition path_join (dir name : string) : string := dir +:+ "/" +:+ name.

(** ** DeviceRegistration *)

Definition set_device_config_key (k : string) (v : json) : M unit :=
  modify (fun w => set_device_config (<[k := v]> (device_config w)) w).

(** The best-effort fetch of the CA certificate inside [register_device]. *)
Definition fetch_ca_certificate (env : Env) (certificates : gmap string json)
  : M (gmap string json) :=
  try_except
    (match get_ca env with
     | None => raise RequestException
     | Some ca_response =>
         if (status_code ca_response =? 200)%Z
         then ret (<["ca_cert" := JStr (text ca_response)]> certificates)
         else ret certificates
     end)
    (fun _ => logger WARNING "Could not fetch CA certificate" ;; ret certificates).

Definition register_device (env : Env) : M (option (gmap string json)) :=
  try_except
    (dc <- gets device_config ;;
     _ <- lift (subscript (JObj dc) "device_id") ;;
     logger INFO "Registering device" ;;
     logger DEBUG "Registration payload" ;;
     response <- match post_register env with
                 | None => raise RequestException
                 | Some r => ret r
                 end ;;
     if (status_code response =? 200)%Z then
       (result <- match json_body response with
                  | None => raise JSONDecodeError
                  | Some j => ret j
                  end ;;
        logger INFO "Device registration successful" ;;
        logger DEBUG "Registration response" ;;
        registration <- lift (subscript result "registration") ;;
        client_name <- lift (subscript registration "clientName") ;;
        set_device_config_key "client_name" client_name ;;
        registration <- lift (subscript result "registration") ;;
        auth_name <- lift (subscript registration "authenticationName") ;;
        set_device_config_key "auth_name" auth_name ;;
        has_certificate <- lift (contains "certificate" result) ;;
        if has_certificate then
          (cert_info <- lift (subscript result "certificate") ;;
           client_cert <- lift (dict_get cert_info "certificate" (JStr "")) ;;
           client_key <- lift (dict_get cert_info "privateKey" (JStr "")) ;;
           public_key <- lift (dict_get cert_info "publicKey" (JStr "")) ;;
           certificates <- fetch_ca_certificate env
             (<["public_key" := public_key]>
                (<["client_key" := client_key]>
                   (<["client_cert" := client_cert]> ∅))) ;;
           ret (Some certificates))
        else
          (logger ERROR "No certificate data in registration response" ;;
           ret None))
     else
       (logger ERROR "Registration failed" ;;
        ret None))
    (fun _ => logger ERROR "Failed to register device" ;; ret None).

(** ** CertificateManager *)

Record Certificate : Type := {
  not_valid_before : datetime;
  not_valid_after : datetime
}.

Section Parsers.

(** [x509.load_pem_x509_certificate]: [None] when it raises. *)
Variable load_pem_x509_certificate : string -> option Certificate.

(** [datetime.fromisoformat]: [None] when it raises. *)
Variable fromisoformat : string -> option datetime.

Definition save_certificates (env : Env) (cert_data : gmap string json) (device_id : string)
  : M (gmap string string) :=
  try_except
    (dir <- gets cert_dir ;;
     let cert_files : gmap string string := ∅ in
     cert_files <-
       match cert_data !! "client_cert" with
       | Some v =>
           let cert_file := path_join dir (device_id +:+ ".crt") in
           write_text env cert_file v ;;
           logger INFO "Saved client certificate" ;;
           ret (<["cert" := cert_file]> cert_files)
       | None => ret cert_files
       end ;;
     cert_files <-
       match cert_data !! "client_key" with
       | Some v =>
           let key_file := path_join dir (device_id +:+ ".key") in
           write_text env key_file v ;;
           chmod key_file 384 ;;
           logger INFO "Saved private key" ;;
           ret (<["key" := key_file]> cert_files)
       | None => ret cert_files
       end ;;
     cert_files <-
       match cert_data !! "ca_cert" with
       | Some v =>
           let ca_file := path_join dir "ca.crt" in
           write_text env ca_file v ;;
           logger INFO "Saved CA certificate" ;;
           ret (<["ca" := ca_file]> cert_files)
       | None => ret cert_files
       end ;;
     ret cert_files)
    (fun _ => logger ERROR "Failed to save certificates" ;; ret ∅).

Definition validate_certificates (env : Env) (cert_files : gmap string string) : M bool :=
  try_except
    (present <- match cert_files !! "cert" with
                | None => ret false
                | Some p => path_exists p
                end ;;
     if negb present then ret false
     else
       cert_data <- match cert_files !! "cert" with
                    | None => raise KeyError
                    | Some p => read_bytes p
                    end ;;
       cert <- match load_pem_x509_certificate cert_data with
               | None => raise ValueError
               | Some c => ret c
               end ;;
       let now := utcnow env in
       if (not_valid_after cert <=? now)%Z then
         (logger WARNING "Client certificate has expired" ;; ret false)
       else if (now <? not_valid_before cert)%Z then
         (logger WARNING "Client certificate is not yet valid" ;; ret false)
       else
         (when (not_valid_after cert <=? now + timedelta_days 7)%Z
               (logger WARNING "Client certificate expires soon") ;;
          logger INFO "Certificates are valid" ;;
          ret true))
    (fun _ => logger ERROR "Certificate validation failed" ;; ret false).

(** ** MqttMessage *)

Definition MqttMessage_init (env : Env) (device_id content : json)
    (timestamp : option datetime) (message_type : json) : MqttMessage :=
  {| msg_id := JStr (uuid4 env);
     msg_device_id := device_id;
     msg_content := content;
     msg_timestamp := default (now env) timestamp;
     msg_message_type := message_type |}.

Definition set_msg_timestamp (t : datetime) (m : MqttMessage) : MqttMessage :=
  {| msg_id := msg_id m; msg_device_id := msg_device_id m;
     msg_content := msg_content m; msg_timestamp := t;
     msg_message_type := msg_message_type m |}.

Definition set_msg_id (v : json) (m : MqttMessage) : MqttMessage :=
  {| msg_id := v; msg_device_id := msg_device_id m;
     msg_content := msg_content m; msg_timestamp := msg_timestamp m;
     msg_message_type := msg_message_type m |}.

Definition from_dict (env : Env) (data : json) : result MqttMessage :=
  device_id <-? subscript data "device_id" ;;
  content <-? subscript data "content" ;;
  message_type <-? dict_get data "message_type" (JStr "general") ;;
  let msg := MqttMessage_init env device_id content None message_type in
  has_timestamp <-? contains "timestamp" data ;;
  msg <-? (if has_timestamp then
             ts <-? subscript data "timestamp" ;;
             match ts with
             | JStr s =>
                 match fromisoformat (replace_Z s) with
                 | Some t => Ok (set_msg_timestamp t msg)
                 | None => Raise ValueError
                 end
             | _ => Raise AttributeError
             end
           else Ok msg) ;;
  has_id <-? contains "id" data ;;
  if has_id then
    v <-? subscript data "id" ;;
    Ok (set_msg_id v msg)
  else Ok msg.

(** ** BitNetInference *)

Definition validate_setup : M bool :=
  bitnet <- gets bitnet_path ;;
  e <- path_exists bitnet ;;
  if negb e then
    (logger ERROR "BitNet repository not found" ;; ret false)
  else
    e <- path_exists (path_join bitnet "run_inference.py") ;;
    if negb e then
      (logger ERROR "Inference script not found" ;; ret false)
    else
      e <- path_exists (path_join bitnet "build") ;;
      if negb e then
        (logger ERROR "Build directory not found" ;; ret false)
      else ret true.

(** ** BitNetMqttDevice *)

Definition ensure_certificates (env : Env) : M bool :=
  try_except
    (dir <- gets cert_dir ;;
     did <- gets device_id ;;
     let cert := path_join dir (did +:+ ".crt") in
     let key := path_join dir (did +:+ ".key") in
     let ca := path_join dir "ca.crt" in
     let cert_files : gmap string string :=
       <["ca" := ca]> (<["key" := key]> (<["cert" := cert]> ∅)) in
     e_cert <- path_exists cert ;;
     e_key <- path_exists key ;;
     e_ca <- path_exists ca ;;
     usable <-
       (if e_cert && e_key && e_ca then
          valid <- validate_certificates env cert_files ;;
          if valid then
            (logger INFO "Using existing valid certificates" ;; ret true)
          else
            (logger WARNING "Existing certificates are invalid, re-registering" ;;
             ret false)
        else ret false) ;;
     if usable then ret true
     else
       logger INFO "Registering device with certificate service" ;;
       cert_data <- register_device env ;;
       match cert_data with
       | Some data =>
           if falsy_dict cert_data then
             (logger ERROR "Device registration failed" ;; ret false)
           else
             saved_files <- save_certificates env data did ;;
             if falsy_dict (Some saved_files) then
               (logger ERROR "Failed to save certificates" ;; ret false)
             else
               (logger INFO "Device registration and certificate setup completed" ;;
                ret true)
       | None => logger ERROR "Device registration failed" ;; ret false
       end)
    (fun _ => logger ERROR "Error ensuring certificates" ;; ret false).

(** The [for] loop of [_should_respond] over the content filters. *)
Fixpoint content_match_loop (content_filters : list string) (content : json) : result bool :=
  match content_filters with
  | [] => Ok false
  | filter_item :: rest =>
      c <-? py_lower content ;;
      if str_contains (lower filter_item) c then Ok true
      else content_match_loop rest content
  end.

(** The end of [_should_respond]: probability check, then the default. *)
Definition probability_then_default (env : Env) (response_criteria : ResponseCriteria) : M bool :=
  let response_probability := default 1%Q (probability response_criteria) in
  if Qlt_le_dec response_probability 1 then
    if Qlt_le_dec response_probability (random env) then
      (logger DEBUG "Failed probability check" ;; ret false)
    else
      (logger DEBUG "Using default_respond setting" ;;
       ret (default true (default_respond response_criteria)))
  else
    (logger DEBUG "Using default_respond setting" ;;
     ret (default true (default_respond response_criteria))).

Definition _should_respond (env : Env) (message : MqttMessage) : M bool :=
  did <- gets device_id ;;
  if py_eq_str (msg_device_id message) did then
    (logger DEBUG "Not responding to own message" ;; ret false)
  else
    cfg <- gets config ;;
    let response_criteria := default empty_criteria (cfg_response_criteria cfg) in
    let allowed_types := default ["general"] (message_types response_criteria) in
    if negb (py_in_strs (msg_message_type message) allowed_types) then
      (logger DEBUG "Message type not in allowed types" ;; ret false)
    else
      let filters := default [] (content_filters response_criteria) in
      content_match <- lift (content_match_loop filters (msg_content message)) ;;
      if negb (bool_decide (filters = [])) && negb content_match then
        (logger DEBUG "Content doesn't match any filters" ;;
         probability_then_default env response_criteria)
      else if content_match then
        (logger DEBUG "Content matched filter, will respond" ;; ret true)
      else probability_then_default env response_criteria.

(** [_handle_response]: the reply is produced on a thread of its own;
    the receive path only starts it. *)
Definition _handle_response (message : MqttMessage) : M unit :=
  modify (fun w => set_workers (workers w ++ [message]) w).

Definition client_is_connected (w : World) : bool :=
  match mqtt_client w with
  | Some c => transport_connected c
  | None => false
  end.

Definition publish_message (message : MqttMessage) : M unit :=
  connected <- gets client_is_connected ;;
  if connected then
    cfg <- gets config ;;
    let topic := topic (cfg_mqtt cfg) in
    modify (fun w => set_outbox (outbox w ++ [(topic, message)]) w) ;;
    _ <- lift (slice_to (msg_content message) 50) ;;
    logger DEBUG "Published message"
  else
    logger ERROR "MQTT client not connected".

Definition set_subscriptions (l : list string) (c : MqttClient) : MqttClient :=
  {| client_id := client_id c; username_pw := username_pw c;
     tls_context := tls_context c; transport_connected := transport_connected c;
     subscriptions := l; loop_running := loop_running c |}.

Definition set_transport_connected (b : bool) (c : MqttClient) : MqttClient :=
  {| client_id := client_id c; username_pw := username_pw c;
     tls_context := tls_context c; transport_connected := b;
     subscriptions := subscriptions c; loop_running := loop_running c |}.

Definition set_loop_running (b : bool) (c : MqttClient) : MqttClient :=
  {| client_id := client_id c; username_pw := username_pw c;
     tls_context := tls_context c; transport_connected := transport_connected c;
     subscriptions := subscriptions c; loop_running := b |}.

Definition set_username_pw (u p : string) (c : MqttClient) : MqttClient :=
  {| client_id := client_id c; username_pw := Some (u, p);
     tls_context := tls_context c; transport_connected := transport_connected c;
     subscriptions := subscriptions c; loop_running := loop_running c |}.

Definition set_tls_context (c : MqttClient) : MqttClient :=
  {| client_id := client_id c; username_pw := username_pw c;
     tls_context := true; transport_connected := transport_connected c;
     subscriptions := subscriptions c; loop_running := loop_running c |}.

(** A call on [self.mqtt_client]. *)
Definition on_client (f : MqttClient -> MqttClient) : M unit :=
  modify (fun w => set_mqtt_client (f <$> mqtt_client w) w).

Definition join_content (device_id : string) : string :=
  "Device " +:+ device_id +:+ " joined the network with BitNet capabilities".

Definition leave_content (device_id : string) : string :=
  "Device " +:+ device_id +:+ " leaving the network".

Definition on_mqtt_connect (env : Env) (rc : Z) : M unit :=
  if (rc =? 0)%Z then
    logger INFO "Connected to MQTT broker" ;;
    modify (set_is_connected true) ;;
    cfg <- gets config ;;
    let topic := topic (cfg_mqtt cfg) in
    on_client (fun c => set_subscriptions (subscriptions c ++ [topic]) c) ;;
    logger INFO "Subscribed to topic" ;;
    sent <- gets join_message_sent ;;
    if negb sent then
      did <- gets device_id ;;
      let presence_msg :=
        MqttMessage_init env (JStr did) (JStr (join_content did)) None (JStr "presence") in
      publish_message presence_msg ;;
      modify (set_join_message_sent true)
    else ret tt
  else
    logger ERROR "Failed to connect to MQTT broker" ;;
    modify (set_is_connected false).

Definition decode (payload : wire) : M unit :=
  match payload with
  | NotUnicode => raise UnicodeDecodeError
  | _ => ret tt
  end.

Definition json_loads (payload : wire) : M json :=
  match payload with
  | Json j => ret j
  | _ => raise JSONDecodeError
  end.

Definition on_mqtt_message (env : Env) (msg_payload : wire) : M unit :=
  try_except
    (decode msg_payload ;;
     logger DEBUG "Raw MQTT payload" ;;
     payload <- json_loads msg_payload ;;
     logger DEBUG "Parsed JSON payload" ;;
     has_device_id <- lift (contains "device_id" payload) ;;
     if negb has_device_id then
       logger WARNING "Missing 'device_id' in payload"
     else
       has_content <- lift (contains "content" payload) ;;
       if negb has_content then
         logger WARNING "Missing 'content' in payload"
       else
         message <- lift (from_dict env payload) ;;
         _ <- lift (slice_to (msg_content message) 100) ;;
         logger INFO "Received message" ;;
         modify (fun w => set_message_history (message_history w ++ [message]) w) ;;
         history <- gets message_history ;;
         when (bool_decide (100 < length history))
              (modify (fun w => set_message_history (drop 1 (message_history w)) w)) ;;
         respond <- _should_respond env message ;;
         when respond (_handle_response message))
    (fun e =>
       match e with
       | JSONDecodeError =>
           decode msg_payload ;;
           logger ERROR "Failed to decode MQTT message"
       | KeyError =>
           logger ERROR "Missing required field in MQTT message"
       | _ =>
           decode msg_payload ;;
           logger ERROR "Error processing MQTT message"
       end).

Definition on_mqtt_disconnect (rc : Z) : M unit :=
  modify (set_is_connected false) ;;
  if negb (rc =? 0)%Z then
    logger WARNING "Unexpected MQTT disconnection"
  else
    logger INFO "MQTT client disconnected".

Definition start (env : Env) : M bool :=
  ok <- ensure_certificates env ;;
  if negb ok then
    (logger ERROR "Failed to ensure certificates" ;; ret false)
  else
    ok <- validate_setup ;;
    if negb ok then
      (logger ERROR "BitNet setup validation failed" ;; ret false)
    else
      logger INFO "Starting BitNet MQTT Device" ;;
      cfg <- gets config ;;
      did <- gets device_id ;;
      let client_name := default ("device-" +:+ did) (cfg_client_name cfg) in
      let auth_name := default (did +:+ "-authnID") (cfg_auth_name cfg) in
      logger INFO "Using MQTT client name" ;;
      logger INFO "Using MQTT auth name" ;;
      modify (set_mqtt_client
                (Some {| client_id := client_name; username_pw := None;
                         tls_context := false; transport_connected := false;
                         subscriptions := []; loop_running := false |})) ;;
      on_client (set_username_pw auth_name "") ;;
      let mqtt_config := cfg_mqtt cfg in
      tls_done <-
        (if default true (use_tls mqtt_config) then
           if load_cert_chain_ok env then
             (on_client set_tls_context ;;
              logger INFO "TLS configured with client certificate authentication" ;;
              ret true)
           else
             (logger ERROR "Failed to configure TLS" ;; ret false)
         else ret true) ;;
      if negb tls_done then ret false
      else if connect_ok env then
        (modify (set_running true) ;;
         on_client (set_loop_running true) ;;
         logger INFO "Service started successfully" ;;
         ret true)
      else
        (logger ERROR "Failed to start service" ;; ret false).

Definition stop (env : Env) : M unit :=
  logger INFO "Stopping BitNet MQTT Device" ;;
  modify (set_running false) ;;
  client <- gets mqtt_client ;;
  match client with
  | Some _ =>
      did <- gets device_id ;;
      let goodbye_msg :=
        MqttMessage_init env (JStr did) (JStr (leave_content did)) None (JStr "presence") in
      publish_message goodbye_msg ;;
      on_client (set_loop_running false) ;;
      on_client (set_transport_connected false)
  | None => ret tt
  end ;;
  modify (set_is_connected false) ;;
  modify (set_join_message_sent false) ;;
  logger INFO "Service stopped".

End Parsers.

(** ** Construction of the device *)

(** [s.rstrip('/')]. *)
Fixpoint rstrip_slash (s : string) : string :=
  match s with
  | EmptyString => EmptyString
  | String c s' =>
      let r := rstrip_slash s' in
      if Ascii.eqb c "/"%char && String.eqb r "" then EmptyString else String c r
  end.

Definition _generate_device_id (cfg : Config) (hostname mac_suffix : string) : string :=
  match cfg_device_id cfg with
  | Some custom_id =>
      if String.eqb custom_id "" then "bitnet-" +:+ hostname +:+ "-" +:+ mac_suffix
      else custom_id
  | None => "bitnet-" +:+ hostname +:+ "-" +:+ mac_suffix
  end.

Definition default_cert_service_url : string :=
  "https://makerspace-cert-service.proudwave-5e4592e9.westus2.azurecontainerapps.io".

(** [BitNetMqttDevice.__init__]: the dict handed to [DeviceRegistration]
    is built here, key by key; it is an object of its own, not [config]. *)
Definition BitNetMqttDevice_init (cfg : Config) (hostname mac_suffix : string)
    (fs0 : gmap string node) : World :=
  let did := _generate_device_id cfg hostname mac_suffix in
  let dir := default "./certs" (cfg_cert_dir cfg) in
  {| config := cfg;
     device_id := did;
     running := false;
     mqtt_client := None;
     message_history := [];
     is_connected := false;
     join_message_sent := false;
     cert_dir := dir;
     service_url := rstrip_slash (default default_cert_service_url (cfg_cert_service_url cfg));
     device_config :=
       <["description" := JStr (default ("BitNet MQTT device " +:+ did) (cfg_description cfg))]>
       (<["location" := JStr (default "unknown" (cfg_location cfg))]>
       (<["capabilities" := JArr (JStr <$> default ["mqtt"; "bitnet"] (cfg_capabilities cfg))]>
       (<["device_type" := JStr (default "raspberry_pi" (cfg_device_type cfg))]>
       (<["device_id" := JStr did]> ∅))));
     bitnet_path := default "../BitNet" (cfg_bitnet_path cfg);
     fs := match fs0 !! dir with
           | None => <[dir := Dir]> fs0
           | Some _ => fs0
           end;
     log := [];
     outbox := [];
     workers := [] |}.

(** ** The session as the transport drives it

    The transport calls [on_mqtt_connect] when the broker answers the
    connection request, after marking itself connected if the answer is
    0, and [on_mqtt_disconnect] when the connection ends, after marking
    itself disconnected. *)

Inductive event : Type :=
  | Connack (env : Env) (rc : Z)
  | ConnectionLost (rc : Z)
  | Message (env : Env) (msg_payload : wire)
  | Start (env : Env)
  | Stop (env : Env).

Section Session.

Variable load_pem_x509_certificate : string -> option Certificate.
Variable fromisoformat : string -> option datetime.

Definition deliver (e : event) : M unit :=
  match e with
  | Connack env rc =>
      when (rc =? 0)%Z (on_client (set_transport_connected true)) ;;
      on_mqtt_connect env rc
  | ConnectionLost rc =>
      on_client (set_transport_connected false) ;;
      on_mqtt_disconnect rc
  | Message env msg_payload => on_mqtt_message fromisoformat env msg_payload
  | Start env => _ <- start load_pem_x509_certificate env ;; ret tt
  | Stop env => stop env
  end.

Fixpoint run (es : list event) (w : World) : World :=
  match es with
  | [] => w
  | e :: es' => run es' (fst (deliver e w))
  end.

End Session.

Definition is_stop (e : event) : bool :=
  match e with
  | Stop _ => true
  | _ => false
  end.

(** A broker answer that establishes the session. *)
Definition is_connected_answer (e : event) : bool :=
  match e with
  | Connack _ rc => (rc =? 0)%Z
  | _ => false
  end.

(** The join announcements among the published messages. *)
Definition is_join (device_id : string) (p : string * MqttMessage) : bool :=
  py_eq_str (msg_message_type (snd p)) "presence" &&
  py_eq_str (msg_content (snd p)) (join_content device_id).

Definition joins (w : World) : nat :=
  length (filter (fun p => is_join (device_id w) p = true) (outbox w)).


(** ** The wire form of a message *)

Section Wire.

(** [datetime.isoformat]. *)
Variable isoformat : datetime -> string.

Definition to_dict (m : MqttMessage) : gmap string json :=
  <["message_type" := msg_message_type m]>
  (<["timestamp" := JStr (isoformat (msg_timestamp m))]>
  (<["content" := msg_content m]>
  (<["device_id" := msg_device_id m]>
  (<["id" := msg_id m]> ∅)))).

End Wire.

(** ** DeviceRegistration, the hardware address *)

(** One hexadecimal digit, for [0 <= n < 16]. *)
Definition hex_digit (n : Z) : ascii :=
  default "0"%char (String.get (Z.to_nat n) "0123456789abcdef").

(** [f'{b:02x}'] for a byte [b], which [& 0xff] makes it. *)
Definition format_02x (b : Z) : string :=
  String (hex_digit (b / 16)) (String (hex_digit (b mod 16)) EmptyString).

(** [(mac >> i) & 0xff for i in range(0, 48, 8)[::-1]]. *)
Definition mac_bytes (mac : Z) : list Z :=
  (fun i => Z.land (Z.shiftr mac i) 255) <$> [40; 32; 24; 16; 8; 0]%Z.

(** [_get_mac_address]; [getnode] is [None] when [uuid.getnode()] raises. *)
Definition _get_mac_address (getnode : option Z) : string :=
  match getnode with
  | Some mac => String.concat ":" (format_02x <$> mac_bytes mac)
  | None => "unknown"
  end.

(** ** BitNetInference, the inference call *)

(** [bitnet_params], passed as [**kwargs]: the keys [generate_response]
    reads, each of the type the inference script expects.  A key that is
    absent is [None]. *)
Record InferenceParams : Type := {
  n_predict : option Z;
  threads : option Z;
  model_path : option string;
  conversation : option bool;
  timeout : option Z
}.

(** What [subprocess.run] comes back with. *)
Inductive subprocess_result : Type :=
  | Completed (returncode : Z) (stdout stderr : string)
  | TimeoutExpired
  | SubprocessError.

(** [str.isspace] on an ASCII character. *)
Definition is_space (c : ascii) : bool :=
  let n := N_of_ascii c in
  (((9 <=? n) && (n <=? 13)) || ((28 <=? n) && (n <=? 32)))%N.

Fixpoint lstrip (s : string) : string :=
  match s with
  | EmptyString => EmptyString
  | String c s' => if is_space c then lstrip s' else s
  end.

Fixpoint rstrip (s : string) : string :=
  match s with
  | EmptyString => EmptyString
  | String c s' =>
      let r := rstrip s' in
      if is_space c && String.eqb r "" then EmptyString else String c r
  end.

(** [s.strip()]. *)
Definition strip (s : string) : string := rstrip (lstrip s).

(** The argument vector [cmd] of [generate_response]. *)
Definition inference_command (executable inference_script prompt : string)
    (kwargs : InferenceParams) : list string :=
  let cmd :=
    [executable; inference_script;
     "-p"; prompt;
     "-n"; pretty (default 128%Z (n_predict kwargs));
     "-t"; pretty (default 2%Z (threads kwargs))] in
  let cmd :=
    match model_path kwargs with
    | Some p => if String.eqb p "" then cmd else cmd ++ ["-m"; p]
    | None => cmd
    end in
  if default false (conversation kwargs) then cmd ++ ["-cnv"] else cmd.

Section Dispatcher.

(** [sys.executable]. *)
Variable executable : string.

(** [subprocess.run(cmd, cwd=..., timeout=...)]. *)
Variable subprocess_run : list string -> string -> Z -> subprocess_result.

(** [str(v)] inside an f-string, for a value that is not a [str]. *)
Variable py_repr : json -> string.

(** [template.format(device_id=..., content=..., context=...,
    own_device_id=...)]. *)
Variable format : string -> json -> json -> string -> string -> result string.

Definition generate_response (prompt : string) (kwargs : InferenceParams)
  : M (option string) :=
  ok <- validate_setup ;;
  if negb ok then ret None
  else
    bitnet <- gets bitnet_path ;;
    let cmd := inference_command executable (path_join bitnet "run_inference.py")
                                 prompt kwargs in
    logger INFO "Executing inference command" ;;
    match subprocess_run cmd bitnet (default 1000%Z (timeout kwargs)) with
    | Completed returncode stdout stderr =>
        if (returncode =? 0)%Z then
          (let response := strip stdout in
           logger INFO "BitNet inference successful" ;;
           ret (Some response))
        else
          (logger ERROR "BitNet inference failed with return code" ;;
           logger ERROR "STDERR" ;;
           ret None)
    | TimeoutExpired =>
        logger ERROR "BitNet inference timed out" ;; ret None
    | SubprocessError =>
        logger ERROR "Error executing BitNet inference" ;; ret None
    end.

(** [f"{v}"]. *)
Definition py_str (v : json) : string :=
  match v with
  | JStr s => s
  | _ => py_repr v
  end.

(** [context[-3:]]. *)
Definition last_three {A} (context : list A) : list A :=
  drop (length context - 3) context.

(** [context[:-1]]. *)
Definition all_but_last {A} (l : list A) : list A :=
  take (length l - 1) l.

Definition default_prompt_template : string :=
  "You are a helpful AI assistant in an IoT network. " +:+
  "Device {device_id} said: '{content}'. " +:+
  "Recent context: {context}. " +:+
  "Provide a helpful, concise response.".

(** The context string of [_generate_prompt]. *)
Definition context_string (context : list MqttMessage) : string :=
  match context with
  | [] => ""
  | _ =>
      String.concat " | "
        ((fun msg => py_str (msg_device_id msg) +:+ ": " +:+ py_str (msg_content msg))
           <$> last_three context)
  end.

(** [_generate_prompt]; [prompt_template] is
    [config.get('prompt_template')]. *)
Definition _generate_prompt (prompt_template : option string)
    (message : MqttMessage) (context : list MqttMessage) : M string :=
  did <- gets device_id ;;
  lift (format (default default_prompt_template prompt_template)
               (msg_device_id message) (msg_content message)
               (context_string context) did).

(** [time.sleep(delay)]: a negative delay is refused. *)
Definition sleep (delay : Q) : M unit :=
  if Qlt_le_dec delay 0 then raise ValueError else ret tt.

(** The thread body of [_handle_response]; [prompt_template],
    [bitnet_params] and [response_delay] are the keys of [config] it
    reads. *)
Definition response_worker (env : Env) (prompt_template : option string)
    (bitnet_params : InferenceParams) (response_delay : option Q)
    (message : MqttMessage) : M unit :=
  try_except
    (logger INFO "Generating response to message" ;;
     history <- gets message_history ;;
     prompt <- _generate_prompt prompt_template message (all_but_last history) ;;
     response_content <- generate_response prompt bitnet_params ;;
     match response_content with
     | Some content =>
         if String.eqb content "" then logger WARNING "Failed to generate response"
         else
           did <- gets device_id ;;
           let response_msg :=
             MqttMessage_init env (JStr did) (JStr content) None (JStr "response") in
           sleep (default 2%Q response_delay) ;;
           publish_message response_msg ;;
           logger INFO "Published response"
     | None => logger WARNING "Failed to generate response"
     end)
    (fun _ => logger ERROR "Error in response worker").

End Dispatcher.

(** [send_manual_message]. *)
Definition send_manual_message (env : Env) (content message_type : string) : M unit :=
  did <- gets device_id ;;
  publish_message (MqttMessage_init env (JStr did) (JStr content) None (JStr message_type)).

(** * Vocabulary of the properties *)

(** ** Response policy *)

(** [self.config.get('response_criteria', {})]. *)
Definition criteria_of (w : World) : ResponseCriteria :=
  default empty_criteria (cfg_response_criteria (config w)).

(** The message is not the device's own. *)
Definition other_device (w : World) (message : MqttMessage) : Prop :=
  py_eq_str (msg_device_id message) (device_id w) = false.

(** The message type is in the configured allow-list. *)
Definition type_allowed (w : World) (message : MqttMessage) : Prop :=
  py_in_strs (msg_message_type message)
             (default ["general"] (message_types (criteria_of w))) = true.

(** No content filter is configured. *)
Definition no_content_filters (w : World) : Prop :=
  default [] (content_filters (criteria_of w)) = [].

(** ** Certificate store *)

(** The client certificate as [validate_certificates] gets hold of it:
    the path under ['cert'], an existing readable file, a PEM that
    parses.  [None] when any of these is not the case. *)
Definition read_certificate (load_pem_x509_certificate : string -> option Certificate)
    (w : World) (cert_files : gmap string string)
  : option Certificate :=
  match cert_files !! "cert" with
  | None => None
  | Some p =>
      match fs w !! p with
      | Some (File data _ true) => load_pem_x509_certificate data
      | _ => None
      end
  end.

(** The warning for a certificate about to expire. *)
Definition expiring_soon : level * string := (WARNING, "Client certificate expires soon").

(** ** Receive path *)

(** The payload is a JSON object with the key [k]. *)
Definition has_field (k : string) (payload : json) : bool :=
  match payload with
  | JObj m => bool_decide (is_Some (m !! k))
  | _ => false
  end.

(** The log of a drop for a missing field. *)
Definition missing_warning (l : list (level * string)) : Prop :=
  l = [(DEBUG, "Raw MQTT payload"); (DEBUG, "Parsed JSON payload");
       (WARNING, "Missing 'device_id' in payload")] \/
  l = [(DEBUG, "Raw MQTT payload"); (DEBUG, "Parsed JSON payload");
       (WARNING, "Missing 'content' in payload")].

(** The optional [timestamp] of a wire message is an ISO-8601 string. *)
Definition timestamp_ok (fromisoformat : string -> option datetime)
    (m : gmap string json) : Prop :=
  match m !! "timestamp" with
  | None => True
  | Some (JStr s) => is_Some (fromisoformat (replace_Z s))
  | Some _ => False
  end.

(** ** Enrollment *)

(** The body names the client: [registration.clientName] and
    [registration.authenticationName] are there. *)
Definition names_present (result : json) : bool :=
  match result with
  | JObj m =>
      match m !! "registration" with
      | Some (JObj reg) =>
          bool_decide (is_Some (reg !! "clientName")) &&
          bool_decide (is_Some (reg !! "authenticationName"))
      | _ => false
      end
  | _ => false
  end.

(** The body has a [certificate] section, and it is an object. *)
Definition certificate_section (result : json) : bool :=
  match result with
  | JObj m =>
      match m !! "certificate" with
      | Some (JObj _) => true
      | _ => false
      end
  | _ => false
  end.

(** No body to work on: the request failed, the status is not 200, or
    the body is not JSON. *)
Definition no_body (env : Env) : Prop :=
  match post_register env with
  | None => True
  | Some r => status_code r <> 200%Z \/ json_body r = None
  end.

(** The enrollment failed: no body, or a body that is malformed. *)
Definition enrollment_failed (env : Env) : Prop :=
  no_body env \/
  exists r result,
    post_register env = Some r /\ json_body r = Some result /\
    (names_present result = false \/ certificate_section result = false).

(** The keys of [device_config] other than the two that enrollment
    writes keep their values. *)
Definition other_keys : relation World :=
  fun w w' =>
    forall k : string, k <> "client_name" -> k <> "auth_name" ->
      device_config w' !! k = device_config w !! k.

(** ** Frames and the session *)

(** [keeps R m]: every run of [m] takes a world to an [R]-related one,
    whether it returns or raises. *)
Definition keeps {A} (R : relation World) (m : M A) : Prop :=
  forall w, R w (fst (m w)).

(** [unchanged f]: the worlds agree on what [f] reads. *)
Definition unchanged {A} (f : World -> A) : relation World :=
  fun w w' => f w' = f w.

(** What the announcement logic reads and writes. *)
Definition session_view (w : World)
  : list (string * MqttMessage) * bool * string * Config :=
  (outbox w, join_message_sent w, device_id w, config w).

(** A client object, once created, is never dropped. *)
Definition client_stays : relation World :=
  fun w w' => is_Some (mqtt_client w) -> is_Some (mqtt_client w').

(** No [stop] among the events. *)
Definition no_stop (es : list event) : Prop :=
  forallb (fun e => negb (is_stop e)) es = true.

(** No broker answer in [es] establishes the session. *)
Definition not_connected (es : list event) : Prop :=
  forallb (fun e => negb (is_connected_answer e)) es = true.

(** The announcement [on_mqtt_connect] publishes in world [w]. *)
Definition join_message (env : Env) (w : World) : string * MqttMessage :=
  (topic (cfg_mqtt (config w)),
   MqttMessage_init env (JStr (device_id w)) (JStr (join_content (device_id w)))
                    None (JStr "presence")).

(** * Sample worlds

    A device [pi-1] with an empty certificate directory and a BitNet
    checkout, an enrollment service that answers, and a few payloads. *)

(** A certificate valid from 0 to 1000 s. *)
Definition sample_certificate : Certificate :=
  {| not_valid_before := 0%Z; not_valid_after := 1000000000%Z |}.

(** One PEM text parses. *)
Definition sample_pem (s : string) : option Certificate :=
  if String.eqb s "PEM" then Some sample_certificate else None.

Definition sample_iso (s : string) : option datetime :=
  if String.eqb s "1970-01-01T00:00:05+00:00" then Some 5000000%Z else None.

Definition sample_config (criteria : option ResponseCriteria) : Config :=
  {| cfg_device_id := Some "pi-1";
     cfg_bitnet_path := Some "/opt/BitNet";
     cfg_cert_dir := Some "/certs";
     cfg_cert_service_url := None;
     cfg_device_type := None;
     cfg_capabilities := None;
     cfg_location := None;
     cfg_description := None;
     cfg_client_name := None;
     cfg_auth_name := None;
     cfg_mqtt := {| broker := "broker.example"; port := None;
                    topic := "devices/bitnet/messages";
                    keepalive := None; use_tls := None |};
     cfg_response_criteria := criteria |}.

Definition sample_fs : gmap string node :=
  <["/opt/BitNet/build" := Dir]>
  (<["/opt/BitNet/run_inference.py" := File "" 420 true]>
  (<["/opt/BitNet" := Dir]> ∅)).

(** [BitNetMqttDevice(config)]. *)
Definition sample_device (criteria : option ResponseCriteria) : World :=
  BitNetMqttDevice_init (sample_config criteria) "raspberrypi" "a1b2c3" sample_fs.

(** The same device with a client certificate on disk, and neither a
    private key nor a CA certificate. *)
Definition certificate_only : World :=
  set_fs (<["/certs/pi-1.crt" := File "PEM" 420 true]> (fs (sample_device None)))
         (sample_device None).

Definition sample_cert_files : gmap string string :=
  <["ca" := "/certs/ca.crt"]>
  (<["key" := "/certs/pi-1.key"]>
  (<["cert" := "/certs/pi-1.crt"]> ∅)).

Definition registration_section : json :=
  JObj (<["clientName" := JStr "enrolled-client"]>
       (<["authenticationName" := JStr "enrolled-auth"]> ∅)).

(** A full enrollment answer. *)
Definition enrollment_body : json :=
  JObj (<["registration" := registration_section]>
       (<["certificate" := JObj (<["certificate" := JStr "PEM"]>
                                (<["privateKey" := JStr "KEY"]> ∅))]> ∅)).

(** An enrollment answer without a [certificate] section. *)
Definition names_only_body : json :=
  JObj (<["registration" := registration_section]> ∅).

Definition sample_env (draw : Q) (utc : Z) (post : option Response) : Env :=
  {| utcnow := utc;
     now := utc;
     uuid4 := "6f1c1d9e-0000-4000-8000-000000000001";
     random := draw;
     post_register := post;
     get_ca := Some {| status_code := 200; text := "CA"; json_body := None |};
     write_fails := fun _ => false;
     load_cert_chain_ok := true;
     connect_ok := true |}.

Definition ok_response (body : json) : option Response :=
  Some {| status_code := 200; text := ""; json_body := Some body |}.

(** The environment of a first start: the service enrolls the device. *)
Definition enrolling : Env := sample_env 0 500000000 (ok_response enrollment_body).

(** The device after its first [start]. *)
Definition started : World := fst (start sample_pem enrolling (sample_device None)).

(** The started device after the broker has accepted the connection. *)
Definition announced : World :=
  fst (deliver sample_pem sample_iso (Connack enrolling 0) started).

(** Probability 0.0, no content filters, [default_respond] true. *)
Definition never_by_chance : ResponseCriteria :=
  {| message_types := None; content_filters := None;
     probability := Some 0%Q; default_respond := Some true |}.

(** A filter on "help", probability 0.0, [default_respond] false. *)
Definition help_only : ResponseCriteria :=
  {| message_types := None; content_filters := Some ["help"];
     probability := Some 0%Q; default_respond := Some false |}.

Definition peer_message (content : string) : MqttMessage :=
  {| msg_id := JStr "6f1c1d9e-0000-4000-8000-000000000002";
     msg_device_id := JStr "pi-2";
     msg_content := JStr content;
     msg_timestamp := 0%Z;
     msg_message_type := JStr "general" |}.

(** [{"content": "hi"}]. *)
Definition content_only : gmap string json := <["content" := JStr "hi"]> ∅.

(** [{"device_id": "pi-2", "content": "hi"}]. *)
Definition untyped_message : gmap string json :=
  <["device_id" := JStr "pi-2"]> (<["content" := JStr "hi"]> ∅).

(** * Vocabulary of the further properties *)

(** [history] after [append] and the eviction that keeps 100 entries. *)
Definition appended (history : list MqttMessage) (message : MqttMessage)
  : list MqttMessage :=
  if bool_decide (100 < length (history ++ [message]))
  then drop 1 (history ++ [message])
  else history ++ [message].


(** Every attribute and everything outside the process, the log apart. *)
Definition except_log (w : World) :=
  (config w, device_id w, running w, mqtt_client w, message_history w,
   is_connected w, join_message_sent w, cert_dir w, service_url w,
   device_config w, bitnet_path w, fs w, outbox w, workers w).

(** The message was published by the device of world [w]. *)
Definition own (w : World) (p : string * MqttMessage) : Prop :=
  msg_device_id (snd p) = JStr (device_id w).

(** The leave announcement [stop] publishes in world [w]. *)
Definition leave_message (env : Env) (w : World) : string * MqttMessage :=
  (topic (cfg_mqtt (config w)),
   MqttMessage_init env (JStr (device_id w)) (JStr (leave_content (device_id w)))
                    None (JStr "presence")).

(** The three files of a device's identity. *)
Definition cert_file (dir device_id : string) : string :=
  path_join dir (device_id +:+ ".crt").

Definition key_file (dir device_id : string) : string :=
  path_join dir (device_id +:+ ".key").

Definition ca_file (dir : string) : string := path_join dir "ca.crt".

(** The [cert_files] that [ensure_certificates] looks for. *)
Definition cert_files_of (w : World) : gmap string string :=
  <["ca" := ca_file (cert_dir w)]>
  (<["key" := key_file (cert_dir w) (device_id w)]>
  (<["cert" := cert_file (cert_dir w) (device_id w)]> ∅)).

(** The identity on disk can be used as it is: the three files exist and
    the client certificate parses and is within its validity. *)
Definition stored_identity (load_pem_x509_certificate : string -> option Certificate)
    (env : Env) (w : World) : bool :=
  bool_decide (is_Some (fs w !! cert_file (cert_dir w) (device_id w))) &&
  bool_decide (is_Some (fs w !! key_file (cert_dir w) (device_id w))) &&
  bool_decide (is_Some (fs w !! ca_file (cert_dir w))) &&
  match read_certificate load_pem_x509_certificate w (cert_files_of w) with
  | Some cert =>
      negb (not_valid_after cert <=? utcnow env)%Z &&
      negb (utcnow env <? not_valid_before cert)%Z
  | None => false
  end.



(** What [start] left unfinished when it returns [False]: no client at
    all, or a client that is neither connected nor looping. *)
Definition idle_client (before after : option MqttClient) : Prop :=
  after = before \/
  exists c, after = Some c /\ loop_running c = false /\ transport_connected c = false.

(** The BitNet checkout is complete: repository, inference script and
    build directory exist. *)
Definition setup_ok (w : World) : bool :=
  bool_decide (is_Some (fs w !! bitnet_path w)) &&
  bool_decide (is_Some (fs w !! path_join (bitnet_path w) "run_inference.py")) &&
  bool_decide (is_Some (fs w !! path_join (bitnet_path w) "build")).

(** The reply [response_worker] publishes in world [w]. *)
Definition response_message (env : Env) (w : World) (content : string)
  : string * MqttMessage :=
  (topic (cfg_mqtt (config w)),
   MqttMessage_init env (JStr (device_id w)) (JStr content) None (JStr "response")).

(** What the dispatcher only reads. *)
Definition except_log_and_outbox (w : World) :=
  (config w, device_id w, running w, mqtt_client w, message_history w,
   is_connected w, join_message_sent w, cert_dir w, service_url w,
   device_config w, bitnet_path w, fs w, workers w).

(** * Further sample worlds *)

(** The announced device with a history of 100 messages. *)
Definition crowded : World :=
  set_message_history (replicate 100 (peer_message "old")) announced.

Definition sample_isoformat (t : datetime) : string :=
  if (t =? 5000000)%Z then "1970-01-01T00:00:05+00:00" else "1970-01-01T00:00:00+00:00".

(** A message of the peer [pi-2], five seconds into the epoch. *)
Definition stamped_message : MqttMessage :=
  {| msg_id := JStr "6f1c1d9e-0000-4000-8000-000000000003";
     msg_device_id := JStr "pi-2";
     msg_content := JStr "hello";
     msg_timestamp := 5000000%Z;
     msg_message_type := JStr "general" |}.

(** A message that carries the id of the sample device itself. *)
Definition echo_message : MqttMessage :=
  {| msg_id := JStr "6f1c1d9e-0000-4000-8000-000000000004";
     msg_device_id := JStr "pi-1";
     msg_content := JStr "help";
     msg_timestamp := 5000000%Z;
     msg_message_type := JStr "general" |}.

(** The join announcement of a peer. *)
Definition presence_message : MqttMessage :=
  {| msg_id := JStr "6f1c1d9e-0000-4000-8000-000000000005";
     msg_device_id := JStr "pi-2";
     msg_content := JStr "Device pi-2 joined the network";
     msg_timestamp := 0%Z;
     msg_message_type := JStr "presence" |}.


(** A complete certificate bundle. *)
Definition sample_bundle : gmap string json :=
  <["ca_cert" := JStr "CA"]>
  (<["client_key" := JStr "KEY"]>
  (<["client_cert" := JStr "PEM"]> ∅)).

(** The enrolling environment, the private key file being refused. *)
Definition key_refused : Env :=
  {| utcnow := 500000000%Z;
     now := 500000000%Z;
     uuid4 := "6f1c1d9e-0000-4000-8000-000000000001";
     random := 0;
     post_register := ok_response enrollment_body;
     get_ca := Some {| status_code := 200; text := "CA"; json_body := None |};
     write_fails := fun p => String.eqb p "/certs/pi-1.key";
     load_cert_chain_ok := true;
     connect_ok := true |}.


(** The sample device after a first, successful [ensure_certificates]. *)
Definition enrolled : World :=
  fst (ensure_certificates sample_pem enrolling (sample_device None)).

(** An inference process that answers. *)
Definition sample_run (cmd : list string) (cwd : string) (timeout : Z)
  : subprocess_result :=
  Completed 0 "  Hello there.  " "".

Definition sample_repr (v : json) : string := "None".

(** A template that is its own expansion. *)
Definition sample_format (template : string) (device_id content : json)
    (context own_device_id : string) : result string :=
  Ok template.

(** [bitnet_params] left out of the configuration. *)
Definition no_params : InferenceParams :=
  {| n_predict := None; threads := None; model_path := None;
     conversation := None; timeout := None |}.

(** * Properties *)

(** Unfolds the monad, so that a method applied to a world computes. *)
Ltac run_m :=
  unfold bind, ret, raise, lift, gets, modify, logger, when, try_except in *;
  cbn [fst snd] in *.

(** ** The response policy *)


Lemma should_respond_gate (env : Env) (w : World) (message : MqttMessage) :
  other_device w message -> type_allowed w message -> no_content_filters w ->
  snd (_should_respond env message w) =
  snd (probability_then_default env (criteria_of w) w).
Proof.
  unfold other_device, type_allowed, no_content_filters, criteria_of.
  intros Hother Htype Hnil.
  unfold _should_respond. run_m. cbn.
  rewrite Hother. cbn. rewrite Htype. cbn. rewrite Hnil. cbn.
  reflexivity.
Qed.

(** C5, as the code has it. With response probability 0.0, no content
    filters and [default_respond] true, a message from another device of
    an allowed type is refused for every positive draw; the check is
    [random.random() > probability], so the draw 0.0 passes it and the
    message is approved. *)
Theorem should_respond_probability_zero (env : Env) (w : World) (message : MqttMessage) (p : Q) :
  other_device w message -> type_allowed w message -> no_content_filters w ->
  probability (criteria_of w) = Some p -> (p == 0)%Q ->
  default_respond (criteria_of w) = Some true ->
  ((0 < random env)%Q -> snd (_should_respond env message w) = Ok false) /\
  ((random env == 0)%Q -> snd (_should_respond env message w) = Ok true).
Proof.
  intros Hother Htype Hnil Hp Hp0 Hdef.
  rewrite (should_respond_gate env w message Hother Htype Hnil).
  unfold probability_then_default. rewrite Hp, Hdef. simpl.
  destruct (Qlt_le_dec p 1) as [Hlt|Hge].
  2:{ rewrite Hp0 in Hge. exfalso. revert Hge. apply Qlt_not_le. reflexivity. }
  split; intros Hr.
  - destruct (Qlt_le_dec p (random env)) as [_|Hle]; [reflexivity|].
    exfalso. rewrite Hp0 in Hle. revert Hle. apply Qlt_not_le. exact Hr.
  - destruct (Qlt_le_dec p (random env)) as [Hlt'|_]; [|reflexivity].
    exfalso. rewrite Hp0, Hr in Hlt'. revert Hlt'. apply Qlt_irrefl.
Qed.



(** ** The certificate store *)

Section CertificateStore.

Variable load_pem_x509_certificate : string -> option Certificate.

Lemma validate_unreadable (env : Env) (w : World) (cert_files : gmap string string) :
  read_certificate load_pem_x509_certificate w cert_files = None ->
  snd (validate_certificates load_pem_x509_certificate env cert_files w) = Ok false.
Proof.
  unfold read_certificate, validate_certificates, path_exists, read_bytes. run_m.
  destruct (cert_files !! "cert") as [p|]; [|reflexivity].
  destruct (fs w !! p) as [[|data mode [|]]|] eqn:Hp; cbn; rewrite ?Hp; cbn;
    try reflexivity.
  intros ->. reflexivity.
Qed.

Lemma validate_readable (env : Env) (w : World) (cert_files : gmap string string)
    (cert : Certificate) :
  read_certificate load_pem_x509_certificate w cert_files = Some cert ->
  validate_certificates load_pem_x509_certificate env cert_files w =
  if (not_valid_after cert <=? utcnow env)%Z then
    (set_log (log w ++ [(WARNING, "Client certificate has expired")]) w, Ok false)
  else if (utcnow env <? not_valid_before cert)%Z then
    (set_log (log w ++ [(WARNING, "Client certificate is not yet valid")]) w, Ok false)
  else if (not_valid_after cert <=? utcnow env + timedelta_days 7)%Z then
    (set_log ((log w ++ [expiring_soon]) ++ [(INFO, "Certificates are valid")])
             (set_log (log w ++ [expiring_soon]) w), Ok true)
  else
    (set_log (log w ++ [(INFO, "Certificates are valid")]) w, Ok true).
Proof.
  unfold read_certificate, validate_certificates, path_exists, read_bytes. run_m.
  destruct (cert_files !! "cert") as [p|]; [|discriminate].
  destruct (fs w !! p) as [[|data mode [|]]|] eqn:Hp; try discriminate.
  intros Hload. cbn. rewrite Hp. cbn. rewrite Hload.
  destruct (not_valid_after cert <=? utcnow env)%Z; [reflexivity|].
  destruct (utcnow env <? not_valid_before cert)%Z; [reflexivity|].
  destruct (not_valid_after cert <=? utcnow env + timedelta_days 7)%Z; reflexivity.
Qed.

(** C6. Validity is checked exactly at the boundary: a client certificate
    whose [not_valid_after] lies in the past fails, one whose
    [not_valid_after] equals the current time fails, and one whose
    [not_valid_after] is one second ahead, with [not_valid_before] not
    after now, passes. *)
Theorem validate_certificates_boundary (env : Env) (w : World)
    (cert_files : gmap string string) (cert : Certificate) :
  read_certificate load_pem_x509_certificate w cert_files = Some cert ->
  ((not_valid_after cert < utcnow env)%Z ->
     snd (validate_certificates load_pem_x509_certificate env cert_files w) = Ok false) /\
  (not_valid_after cert = utcnow env ->
     snd (validate_certificates load_pem_x509_certificate env cert_files w) = Ok false) /\
  (not_valid_after cert = (utcnow env + timedelta_seconds 1)%Z ->
   (not_valid_before cert <= utcnow env)%Z ->
     snd (validate_certificates load_pem_x509_certificate env cert_files w) = Ok true).
Proof.
  intros Hread. rewrite (validate_readable env w cert_files cert Hread).
  unfold timedelta_seconds, timedelta_days.
  repeat split.
  - intros Hpast. destruct (Z.leb_spec (not_valid_after cert) (utcnow env)); [reflexivity|lia].
  - intros Hnow. destruct (Z.leb_spec (not_valid_after cert) (utcnow env)); [reflexivity|lia].
  - intros Hnext Hbefore.
    destruct (Z.leb_spec (not_valid_after cert) (utcnow env)); [lia|].
    destruct (Z.ltb_spec (utcnow env) (not_valid_before cert)); [lia|].
    destruct (Z.leb_spec (not_valid_after cert) (utcnow env + 7 * 86400 * 1000000)); reflexivity.
Qed.

(** C3, as the code has it. [validate_certificates] fails closed on the
    client certificate: it returns [False] when the client certificate is
    missing, unreadable or does not parse, and when it is expired or not
    yet valid; it returns [True], after logging a warning, when the
    certificate is valid but expires within 7 days.  The private key and
    the CA certificate are not looked at: the outcome is the same for any
    two [cert_files] with the same ['cert'] entry. *)
Theorem validate_certificates_fails_closed (env : Env) (w : World)
    (cert_files : gmap string string) :
  (read_certificate load_pem_x509_certificate w cert_files = None ->
     snd (validate_certificates load_pem_x509_certificate env cert_files w) = Ok false) /\
  (forall cert, read_certificate load_pem_x509_certificate w cert_files = Some cert ->
     (not_valid_after cert <= utcnow env)%Z \/ (utcnow env < not_valid_before cert)%Z ->
     snd (validate_certificates load_pem_x509_certificate env cert_files w) = Ok false) /\
  (forall cert, read_certificate load_pem_x509_certificate w cert_files = Some cert ->
     (not_valid_before cert <= utcnow env < not_valid_after cert)%Z ->
     (not_valid_after cert <= utcnow env + timedelta_days 7)%Z ->
     snd (validate_certificates load_pem_x509_certificate env cert_files w) = Ok true /\
     expiring_soon ∈ log (fst (validate_certificates load_pem_x509_certificate env cert_files w))) /\
  (forall cert_files' : gmap string string,
     cert_files' !! "cert" = cert_files !! "cert" ->
     validate_certificates load_pem_x509_certificate env cert_files' w =
     validate_certificates load_pem_x509_certificate env cert_files w).
Proof.
  split; [apply validate_unreadable|].
  split; [|split].
  - intros cert Hread Hout. rewrite (validate_readable env w cert_files cert Hread).
    destruct (Z.leb_spec (not_valid_after cert) (utcnow env)); [reflexivity|].
    destruct (Z.ltb_spec (utcnow env) (not_valid_before cert)); [reflexivity|lia].
  - intros cert Hread Hin Hsoon. rewrite (validate_readable env w cert_files cert Hread).
    destruct (Z.leb_spec (not_valid_after cert) (utcnow env)); [lia|].
    destruct (Z.ltb_spec (utcnow env) (not_valid_before cert)); [lia|].
    destruct (Z.leb_spec (not_valid_after cert) (utcnow env + timedelta_days 7)); [|lia].
    split; [reflexivity|]. cbn.
    apply elem_of_app. left. apply elem_of_app. right. apply list_elem_of_singleton. reflexivity.
  - intros cert_files' Hsame.
    unfold validate_certificates. rewrite Hsame. reflexivity.
Qed.

End CertificateStore.

(** ** Frames: what a method leaves alone

    For a preorder [R] that the field updates used by a method respect,
    the method keeps [R]. *)

Create HintDb frame.

Section FrameRules.

Context (R : relation World) `{!Reflexive R} `{!Transitive R}.

Lemma keeps_ret {A} (a : A) : keeps R (ret a).
Proof. intros w. reflexivity. Qed.

Lemma keeps_raise {A} (e : exn) : keeps R (@raise A e).
Proof. intros w. reflexivity. Qed.

Lemma keeps_lift {A} (r : result A) : keeps R (lift r).
Proof. intros w. reflexivity. Qed.

Lemma keeps_gets {A} (f : World -> A) : keeps R (gets f).
Proof. intros w. reflexivity. Qed.

Lemma keeps_modify (f : World -> World) : (forall w, R w (f w)) -> keeps R (modify f).
Proof. intros Hf w. apply Hf. Qed.

Lemma keeps_bind {A B} (m : M A) (k : A -> M B) :
  keeps R m -> (forall a, keeps R (k a)) -> keeps R (bind m k).
Proof.
  intros Hm Hk w. unfold bind. specialize (Hm w).
  destruct (m w) as [w' [a|e]]; cbn in *; [|exact Hm].
  transitivity w'; [exact Hm|apply Hk].
Qed.

Lemma keeps_try_except {A} (m : M A) (h : exn -> M A) :
  keeps R m -> (forall e, keeps R (h e)) -> keeps R (try_except m h).
Proof.
  intros Hm Hh w. unfold try_except. specialize (Hm w).
  destruct (m w) as [w' [a|e]]; cbn in *; [exact Hm|].
  transitivity w'; [exact Hm|apply Hh].
Qed.

Lemma keeps_when (b : bool) (m : M unit) : keeps R m -> keeps R (when b m).
Proof. intros Hm. destruct b; [exact Hm|apply keeps_ret]. Qed.

End FrameRules.

Ltac frame_step :=
  match goal with
  | |- keeps _ (bind _ _) => apply keeps_bind; [exact _| |intros; cbv beta zeta]
  | |- keeps _ (try_except _ _) => apply keeps_try_except; [exact _| |intros; cbv beta zeta]
  | |- keeps _ (ret _) => apply keeps_ret; exact _
  | |- keeps _ (raise _) => apply keeps_raise; exact _
  | |- keeps _ (lift _) => apply keeps_lift; exact _
  | |- keeps _ (gets _) => apply keeps_gets; exact _
  | |- keeps _ (when _ _) => apply keeps_when; [exact _|]
  | |- keeps _ (modify _) => apply keeps_modify; intros
  | |- keeps _ (match ?x with _ => _ end) => destruct x
  end.

Ltac frame := repeat first [ frame_step | solve [eauto with frame] ].

Section Frame.

Context (R : relation World) `{!Reflexive R} `{!Transitive R}.

Hypothesis R_log : forall v w, R w (set_log v w).
Hypothesis R_fs : forall v w, R w (set_fs v w).
Hypothesis R_device_config : forall v w, R w (set_device_config v w).
Hypothesis R_message_history : forall v w, R w (set_message_history v w).
Hypothesis R_workers : forall v w, R w (set_workers v w).
Hypothesis R_running : forall v w, R w (set_running v w).
Hypothesis R_is_connected : forall v w, R w (set_is_connected v w).
Hypothesis R_client_call : forall f w, R w (set_mqtt_client (f <$> mqtt_client w) w).
Hypothesis R_client_new : forall c w, R w (set_mqtt_client (Some c) w).

#[local] Hint Resolve R_log R_fs R_device_config R_message_history R_workers
  R_running R_is_connected R_client_call R_client_new : frame.

Lemma keeps_logger (l : level) (text : string) : keeps R (logger l text).
Proof. unfold logger. frame. Qed.
#[local] Hint Resolve keeps_logger : frame.

Lemma keeps_path_exists (p : string) : keeps R (path_exists p).
Proof. unfold path_exists. frame. Qed.

Lemma keeps_read_bytes (p : string) : keeps R (read_bytes p).
Proof. unfold read_bytes. frame. Qed.

Lemma keeps_write_text (env : Env) (p : string) (v : json) : keeps R (write_text env p v).
Proof. unfold write_text. frame. Qed.

Lemma keeps_chmod (p : string) (mode : Z) : keeps R (chmod p mode).
Proof. unfold chmod. frame. Qed.
#[local] Hint Resolve keeps_path_exists keeps_read_bytes keeps_write_text keeps_chmod : frame.

Lemma keeps_on_client (f : MqttClient -> MqttClient) : keeps R (on_client f).
Proof. unfold on_client. frame. Qed.

Lemma keeps_fetch_ca_certificate (env : Env) (certificates : gmap string json) :
  keeps R (fetch_ca_certificate env certificates).
Proof. unfold fetch_ca_certificate. frame. Qed.
#[local] Hint Resolve keeps_on_client keeps_fetch_ca_certificate : frame.

Lemma keeps_register_device (env : Env) : keeps R (register_device env).
Proof. unfold register_device, set_device_config_key. frame. Qed.

Lemma keeps_validate_setup : keeps R validate_setup.
Proof. unfold validate_setup. frame. Qed.

Lemma keeps_probability_then_default (env : Env) (rc : ResponseCriteria) :
  keeps R (probability_then_default env rc).
Proof. unfold probability_then_default. frame. Qed.
#[local] Hint Resolve keeps_register_device keeps_validate_setup
  keeps_probability_then_default : frame.

Lemma keeps_should_respond (env : Env) (message : MqttMessage) :
  keeps R (_should_respond env message).
Proof. unfold _should_respond. frame. Qed.

Lemma keeps_handle_response (message : MqttMessage) : keeps R (_handle_response message).
Proof. unfold _handle_response. frame. Qed.

Lemma keeps_on_mqtt_disconnect (rc : Z) : keeps R (on_mqtt_disconnect rc).
Proof. unfold on_mqtt_disconnect. frame. Qed.
#[local] Hint Resolve keeps_should_respond keeps_handle_response : frame.

Section WithParsers.

Variable load_pem_x509_certificate : string -> option Certificate.
Variable fromisoformat : string -> option datetime.

Lemma keeps_save_certificates (env : Env) (cert_data : gmap string json) (did : string) :
  keeps R (save_certificates env cert_data did).
Proof. unfold save_certificates. frame. Qed.

Lemma keeps_validate_certificates (env : Env) (cert_files : gmap string string) :
  keeps R (validate_certificates load_pem_x509_certificate env cert_files).
Proof. unfold validate_certificates. frame. Qed.
#[local] Hint Resolve keeps_save_certificates keeps_validate_certificates : frame.

Lemma keeps_ensure_certificates (env : Env) :
  keeps R (ensure_certificates load_pem_x509_certificate env).
Proof. unfold ensure_certificates. frame. Qed.
#[local] Hint Resolve keeps_ensure_certificates : frame.

Lemma keeps_on_mqtt_message (env : Env) (msg_payload : wire) :
  keeps R (on_mqtt_message fromisoformat env msg_payload).
Proof. unfold on_mqtt_message, decode, json_loads. frame. Qed.

Lemma keeps_start (env : Env) : keeps R (start load_pem_x509_certificate env).
Proof. unfold start. frame. Qed.

End WithParsers.

End Frame.

#[export] Instance unchanged_reflexive {A} (f : World -> A) : Reflexive (unchanged f).
Proof. intros w. reflexivity. Qed.

#[export] Instance unchanged_transitive {A} (f : World -> A) : Transitive (unchanged f).
Proof. intros w1 w2 w3 H12 H23. unfold unchanged in *. congruence. Qed.

(** ** The receive path *)

Section Receive.

Variable fromisoformat : string -> option datetime.

(** C9. An inbound JSON payload without [device_id] or without [content]
    is dropped: the handler returns without raising, the message history
    is unchanged, no response thread is started and nothing is published;
    for a JSON object the drop is logged as a warning. *)
Theorem on_mqtt_message_missing_field (env : Env) (w : World) (payload : json) :
  has_field "device_id" payload = false \/ has_field "content" payload = false ->
  snd (on_mqtt_message fromisoformat env (Json payload) w) = Ok tt /\
  message_history (fst (on_mqtt_message fromisoformat env (Json payload) w)) = message_history w /\
  workers (fst (on_mqtt_message fromisoformat env (Json payload) w)) = workers w /\
  outbox (fst (on_mqtt_message fromisoformat env (Json payload) w)) = outbox w /\
  (forall m, payload = JObj m ->
     exists l, missing_warning l /\
       log (fst (on_mqtt_message fromisoformat env (Json payload) w)) = log w ++ l).
Proof.
  intros Hmissing.
  unfold on_mqtt_message, decode, json_loads. run_m.
  destruct payload as [| b | n | q | s | l | m]; cbn.
  1-4: repeat split; try reflexivity; intros m' Hm'; discriminate Hm'.
  - destruct (str_contains "device_id" s); cbn;
      [destruct (str_contains "content" s); cbn|];
      repeat split; try reflexivity; intros m' Hm'; discriminate Hm'.
  - destruct (existsb (fun x => py_eq_str x "device_id") l); cbn;
      [destruct (existsb (fun x => py_eq_str x "content") l); cbn|];
      repeat split; try reflexivity; intros m' Hm'; discriminate Hm'.
  - cbn in Hmissing.
    destruct (m !! "device_id") as [d|] eqn:Hd; cbn in *.
    + destruct (m !! "content") as [c|] eqn:Hc; cbn in *.
      * destruct Hmissing as [H|H]; discriminate H.
      * repeat split; try reflexivity. intros _ _. eexists. split; [right; reflexivity|].
        cbn. rewrite <- !app_assoc. reflexivity.
    + repeat split; try reflexivity. intros _ _. eexists. split; [left; reflexivity|].
      cbn. rewrite <- !app_assoc. reflexivity.
Qed.


Lemma last_drop_snoc {A} (l : list A) (x : A) :
  last (if bool_decide (100 < length (l ++ [x])) then drop 1 (l ++ [x]) else l ++ [x]) = Some x.
Proof.
  case_bool_decide as Hlen.
  - destruct l as [|y l']; [cbn in Hlen; lia|]. cbn. rewrite drop_0. apply last_snoc.
  - apply last_snoc.
Qed.

Lemma from_dict_no_type (env : Env) (m : gmap string json) (d c : json) :
  m !! "device_id" = Some d -> m !! "content" = Some c ->
  m !! "message_type" = None -> timestamp_ok fromisoformat m ->
  exists t,
    from_dict fromisoformat env (JObj m) =
      Ok {| msg_id := default (JStr (uuid4 env)) (m !! "id");
            msg_device_id := d; msg_content := c; msg_timestamp := t;
            msg_message_type := JStr "general" |} /\
    (m !! "timestamp" = None -> t = now env).
Proof.
  intros Hd Hc Ht Hts. unfold from_dict, rbind, subscript, dict_get, contains, timestamp_ok in *.
  rewrite Hd, Hc, Ht. cbn.
  destruct (m !! "timestamp") as [ts|]; cbn.
  - destruct ts as [| | | | s | |]; try contradiction.
    destruct Hts as [t Hiso]. rewrite Hiso. exists t.
    split; [|discriminate].
    destruct (m !! "id") as [v|]; reflexivity.
  - exists (now env). split; [|reflexivity].
    destruct (m !! "id") as [v|]; reflexivity.
Qed.

Lemma should_respond_defaults (env : Env) (w : World) (message : MqttMessage) :
  cfg_response_criteria (config w) = None -> other_device w message ->
  msg_message_type message = JStr "general" ->
  snd (_should_respond env message w) = Ok true.
Proof.
  unfold other_device. intros Hcfg Hother Htype.
  unfold _should_respond, probability_then_default. run_m. cbn.
  rewrite Hother, Hcfg, Htype. cbn.
  destruct (Qlt_le_dec 1 1) as [Hlt|_]; [|reflexivity].
  exfalso. revert Hlt. apply Qlt_irrefl.
Qed.

(** C10. A wire message with [device_id] and text [content] and without
    [message_type] is accepted: [from_dict] gives it the type "general",
    a missing [id] is the fresh UUID and a missing [timestamp] the local
    time of construction; the handler returns, the message is the newest
    entry of the history, its type is in the default allow-list, and with
    the default response criteria a message of another device starts a
    response. *)
Theorem on_mqtt_message_default_type (env : Env) (w : World) (m : gmap string json)
    (d : json) (c : string) :
  m !! "device_id" = Some d -> m !! "content" = Some (JStr c) ->
  m !! "message_type" = None -> timestamp_ok fromisoformat m ->
  exists message,
    from_dict fromisoformat env (JObj m) = Ok message /\
    msg_message_type message = JStr "general" /\
    msg_id message = default (JStr (uuid4 env)) (m !! "id") /\
    (m !! "timestamp" = None -> msg_timestamp message = now env) /\
    py_in_strs (msg_message_type message)
               (default ["general"] (message_types empty_criteria)) = true /\
    snd (on_mqtt_message fromisoformat env (Json (JObj m)) w) = Ok tt /\
    last (message_history (fst (on_mqtt_message fromisoformat env (Json (JObj m)) w)))
      = Some message /\
    (cfg_response_criteria (config w) = None -> py_eq_str d (device_id w) = false ->
     workers (fst (on_mqtt_message fromisoformat env (Json (JObj m)) w))
       = workers w ++ [message]).
Proof.
  intros Hd Hc Ht Hts.
  destruct (from_dict_no_type env m d (JStr c) Hd Hc Ht Hts) as [t [Hfrom Hnow]].
  eexists. split; [exact Hfrom|].
  split; [reflexivity|]. split; [reflexivity|]. split; [exact Hnow|].
  split; [reflexivity|].
  unfold on_mqtt_message, decode, json_loads. run_m. cbn -[_should_respond _handle_response].
  rewrite Hd, Hc. cbn -[_should_respond _handle_response]. rewrite Hfrom.
  cbn -[_should_respond _handle_response].
  pose proof (last_drop_snoc (message_history w)
    {| msg_id := default (JStr (uuid4 env)) (m !! "id"); msg_device_id := d;
       msg_content := JStr c; msg_timestamp := t;
       msg_message_type := JStr "general" |}) as Hlast.
  destruct (bool_decide (100 < length (message_history w ++ _)));
    cbn -[_should_respond _handle_response] in *;
    match goal with
    | |- context [_should_respond env ?msg ?w2] =>
        pose proof (keeps_should_respond (unchanged message_history)
                      (fun _ _ => eq_refl) env msg w2) as Hhist;
        pose proof (keeps_should_respond (unchanged workers)
                      (fun _ _ => eq_refl) env msg w2) as Hwork;
        pose proof (should_respond_defaults env w2 msg) as Hdefault;
        destruct (_should_respond env msg w2) as [w3 [[|]|e]]
    end;
    unfold unchanged, other_device in *; cbn in *;
    try (destruct e; cbn);
    (split; [reflexivity|]); (split; [congruence|]);
    intros Hcfg Hother; specialize (Hdefault Hcfg Hother eq_refl);
    try discriminate Hdefault; congruence.
Qed.

End Receive.

(** ** Enrollment *)

#[export] Instance other_keys_reflexive : Reflexive other_keys.
Proof. intros w k _ _. reflexivity. Qed.

#[export] Instance other_keys_transitive : Transitive other_keys.
Proof. intros w1 w2 w3 H12 H23 k H1 H2. rewrite (H23 k H1 H2). apply (H12 k H1 H2). Qed.

Lemma other_keys_register_device (env : Env) : keeps other_keys (register_device env).
Proof.
  assert (Hlog : forall l t, keeps other_keys (logger l t)).
  { intros l t. apply keeps_logger; try exact _. intros v w k _ _. reflexivity. }
  assert (Hca : forall c, keeps other_keys (fetch_ca_certificate env c)).
  { intros c. apply keeps_fetch_ca_certificate; try exact _. intros v w k _ _. reflexivity. }
  assert (Hname : forall v, keeps other_keys (set_device_config_key "client_name" v)).
  { intros v w k Hk _. cbn. apply lookup_insert_ne. congruence. }
  assert (Hauth : forall v, keeps other_keys (set_device_config_key "auth_name" v)).
  { intros v w k _ Hk. cbn. apply lookup_insert_ne. congruence. }
  unfold register_device. frame.
Qed.

Lemma register_device_no_body (env : Env) (w : World) :
  no_body env ->
  snd (register_device env w) = Ok None /\
  device_config (fst (register_device env w)) = device_config w.
Proof.
  unfold no_body, register_device. run_m. cbn.
  destruct (device_config w !! "device_id") as [did|]; cbn; [|intros _; split; reflexivity].
  destruct (post_register env) as [r|]; cbn; [|intros _; split; reflexivity].
  destruct (Z.eqb_spec (status_code r) 200) as [H200|H200]; cbn.
  - intros [Hne|Hbody]; [contradiction|]. rewrite Hbody. cbn. split; reflexivity.
  - intros _. split; reflexivity.
Qed.

Lemma register_device_malformed (env : Env) (w : World) (r : Response) (result : json) :
  post_register env = Some r -> json_body r = Some result ->
  names_present result = false \/ certificate_section result = false ->
  snd (register_device env w) = Ok None.
Proof.
  intros Hpost Hbody Hbad.
  unfold register_device, fetch_ca_certificate, set_device_config_key. run_m. cbn.
  destruct (device_config w !! "device_id") as [did|]; cbn; [|reflexivity].
  rewrite Hpost. cbn.
  destruct (status_code r =? 200)%Z; cbn; [|reflexivity].
  rewrite Hbody. cbn.
  destruct result as [| | | | | |m]; cbn; try reflexivity.
  cbn in Hbad.
  destruct (m !! "registration") as [[| | | | | |reg]|]; cbn; try reflexivity.
  destruct (reg !! "clientName") as [cn|]; cbn in *; [|reflexivity].
  destruct (reg !! "authenticationName") as [an|]; cbn in *; [|reflexivity].
  destruct (m !! "certificate") as [[| | | | | |ci]|]; cbn in *; try reflexivity.
  destruct Hbad as [H|H]; discriminate H.
Qed.

(** ** The session *)

(** The methods that publish or touch the announcement flag keep [R]
    when [R] allows that too. *)
Section FrameSession.

Context (R : relation World) `{!Reflexive R} `{!Transitive R}.
Hypothesis R_log : forall v w, R w (set_log v w).
Hypothesis R_fs : forall v w, R w (set_fs v w).
Hypothesis R_device_config : forall v w, R w (set_device_config v w).
Hypothesis R_message_history : forall v w, R w (set_message_history v w).
Hypothesis R_workers : forall v w, R w (set_workers v w).
Hypothesis R_running : forall v w, R w (set_running v w).
Hypothesis R_is_connected : forall v w, R w (set_is_connected v w).
Hypothesis R_client_call : forall f w, R w (set_mqtt_client (f <$> mqtt_client w) w).
Hypothesis R_client_new : forall c w, R w (set_mqtt_client (Some c) w).
Hypothesis R_outbox : forall v w, R w (set_outbox v w).
Hypothesis R_join_message_sent : forall v w, R w (set_join_message_sent v w).

#[local] Hint Resolve R_log R_is_connected R_running R_outbox R_join_message_sent : frame.
#[local] Hint Resolve keeps_logger keeps_on_client : frame.

Lemma keeps_publish_message (message : MqttMessage) : keeps R (publish_message message).
Proof. unfold publish_message. frame. Qed.
#[local] Hint Resolve keeps_publish_message : frame.

Lemma keeps_on_mqtt_connect (env : Env) (rc : Z) : keeps R (on_mqtt_connect env rc).
Proof. unfold on_mqtt_connect. frame. Qed.

Lemma keeps_stop (env : Env) : keeps R (stop env).
Proof. unfold stop. frame. Qed.

Variable load_pem_x509_certificate : string -> option Certificate.
Variable fromisoformat : string -> option datetime.

Lemma keeps_deliver (e : event) :
  keeps R (deliver load_pem_x509_certificate fromisoformat e).
Proof.
  destruct e as [env rc|rc|env p|env|env]; cbn [deliver].
  - frame. apply keeps_on_mqtt_connect.
  - frame. apply keeps_on_mqtt_disconnect; assumption.
  - apply keeps_on_mqtt_message; assumption.
  - frame. apply keeps_start; assumption.
  - apply keeps_stop.
Qed.

End FrameSession.

#[export] Instance client_stays_reflexive : Reflexive client_stays.
Proof. intros w H. exact H. Qed.

#[export] Instance client_stays_transitive : Transitive client_stays.
Proof. intros w1 w2 w3 H12 H23 H. apply H23, H12, H. Qed.

Lemma joins_same (w w' : World) :
  session_view w' = session_view w -> joins w' = joins w.
Proof. unfold session_view, joins. intros H. injection H as Ho _ Hd _. rewrite Ho, Hd. reflexivity. Qed.

Lemma joins_announced (env : Env) (w w' : World) :
  device_id w' = device_id w -> outbox w' = outbox w ++ [join_message env w] ->
  joins w' = joins w + 1.
Proof.
  unfold joins. intros -> ->. rewrite filter_app, length_app.
  f_equal. unfold join_message, is_join. cbn.
  rewrite decide_True; [reflexivity|]. cbn. rewrite String.eqb_refl. reflexivity.
Qed.

Section SessionFacts.

Variable load_pem_x509_certificate : string -> option Certificate.
Variable fromisoformat : string -> option datetime.

#[local] Abbreviation deliver' := (deliver load_pem_x509_certificate fromisoformat).
#[local] Abbreviation run' := (run load_pem_x509_certificate fromisoformat).
#[local] Abbreviation start' := (start load_pem_x509_certificate).

Lemma run_app (es1 es2 : list event) (w : World) :
  run' (es1 ++ es2) w = run' es2 (run' es1 w).
Proof. revert w. induction es1 as [|e es1 IH]; intros w; [reflexivity|]. cbn. apply IH. Qed.

Lemma deliver_client_stays (e : event) : keeps client_stays (deliver' e).
Proof.
  apply keeps_deliver; try exact _; try (intros v w H; exact H).
  - intros f w H. cbn. apply fmap_is_Some. exact H.
  - intros c w _. cbn. eauto.
Qed.

Lemma run_client_stays (es : list event) (w : World) :
  is_Some (mqtt_client w) -> is_Some (mqtt_client (run' es w)).
Proof.
  revert w. induction es as [|e es IH]; intros w H; [exact H|].
  cbn. apply IH. apply (deliver_client_stays e w H).
Qed.

Lemma deliver_quiet (e : event) :
  is_stop e = false -> is_connected_answer e = false ->
  keeps (unchanged session_view) (deliver' e).
Proof.
  destruct e as [env rc|rc|env p|env|env]; cbn [deliver is_stop is_connected_answer];
    intros Hstop Hanswer; try discriminate.
  - intros w. unfold on_mqtt_connect. rewrite Hanswer. reflexivity.
  - frame.
    + apply keeps_on_client; try exact _. intros; reflexivity.
    + apply keeps_on_mqtt_disconnect; try exact _; intros; reflexivity.
  - apply keeps_on_mqtt_message; try exact _; intros; reflexivity.
  - frame. apply keeps_start; try exact _; intros; reflexivity.
Qed.

Lemma run_quiet (es : list event) (w : World) :
  no_stop es -> not_connected es -> session_view (run' es w) = session_view w.
Proof.
  unfold no_stop, not_connected.
  revert w. induction es as [|e es IH]; intros w Hs Hn; [reflexivity|].
  cbn in *. apply andb_true_iff in Hs as [Hs1 Hs2]. apply andb_true_iff in Hn as [Hn1 Hn2].
  rewrite (IH _ Hs2 Hn2).
  apply (deliver_quiet e); [destruct (is_stop e)|destruct (is_connected_answer e)];
    first [reflexivity|discriminate].
Qed.

Lemma deliver_connected_sent (env : Env) (w : World) :
  join_message_sent w = true ->
  session_view (fst (deliver' (Connack env 0) w)) = session_view w.
Proof.
  intros Hsent. unfold session_view. cbn [deliver]. unfold on_mqtt_connect, on_client. run_m.
  cbn. rewrite Hsent. cbn. rewrite Hsent. reflexivity.
Qed.

Lemma deliver_connected_first (env : Env) (w : World) :
  join_message_sent w = false -> is_Some (mqtt_client w) ->
  outbox (fst (deliver' (Connack env 0) w)) = outbox w ++ [join_message env w] /\
  join_message_sent (fst (deliver' (Connack env 0) w)) = true /\
  device_id (fst (deliver' (Connack env 0) w)) = device_id w /\
  config (fst (deliver' (Connack env 0) w)) = config w /\
  is_connected (fst (deliver' (Connack env 0) w)) = true.
Proof.
  intros Hsent [c Hc]. cbn [deliver].
  unfold on_mqtt_connect, publish_message, on_client, client_is_connected, join_message. run_m.
  cbn. rewrite Hsent, Hc. cbn. repeat split; reflexivity.
Qed.

Lemma deliver_connected_bound (env : Env) (w : World) :
  joins (fst (deliver' (Connack env 0) w)) <= joins w + 1 /\
  join_message_sent (fst (deliver' (Connack env 0) w)) = true.
Proof.
  destruct (join_message_sent w) eqn:Hsent.
  - pose proof (deliver_connected_sent env w Hsent) as Hview.
    rewrite (joins_same _ _ Hview). split; [lia|].
    unfold session_view in Hview. congruence.
  - destruct (mqtt_client w) as [c|] eqn:Hc.
    + destruct (deliver_connected_first env w Hsent) as (Ho & Hj & Hd & _); [eauto|].
      rewrite (joins_announced env w _ Hd Ho). split; [lia|exact Hj].
    + cbn [deliver].
      unfold on_mqtt_connect, publish_message, on_client, client_is_connected, joins. run_m.
      cbn. rewrite Hsent, Hc. cbn. split; [lia|reflexivity].
Qed.

Lemma connected_answer_inv (e : event) :
  is_connected_answer e = true -> exists env, e = Connack env 0.
Proof.
  destruct e as [env rc| | | |]; cbn; try discriminate.
  intros H. apply Z.eqb_eq in H. subst rc. eauto.
Qed.

(** Once announced, nothing but [stop] makes the device announce again. *)
Lemma run_sent (es : list event) (w : World) :
  no_stop es -> join_message_sent w = true ->
  joins (run' es w) = joins w /\ join_message_sent (run' es w) = true.
Proof.
  unfold no_stop.
  revert w. induction es as [|e es IH]; intros w Hs Hsent; [split; [reflexivity|exact Hsent]|].
  cbn in *. apply andb_true_iff in Hs as [Hs1 Hs2].
  assert (Hview : session_view (fst (deliver' e w)) = session_view w).
  { destruct (is_connected_answer e) eqn:Ha.
    - destruct (connected_answer_inv e Ha) as [env ->].
      apply deliver_connected_sent, Hsent.
    - apply (deliver_quiet e); [destruct (is_stop e); [discriminate|reflexivity]|exact Ha]. }
  destruct (IH (fst (deliver' e w)) Hs2) as [Hj Hf].
  { unfold session_view in Hview. congruence. }
  rewrite Hj, Hf. split; [apply joins_same, Hview|reflexivity].
Qed.

Lemma run_bound (es : list event) (w : World) :
  no_stop es -> joins (run' es w) <= joins w + 1.
Proof.
  unfold no_stop.
  revert w. induction es as [|e es IH]; intros w Hs; [cbn; lia|].
  cbn in *. apply andb_true_iff in Hs as [Hs1 Hs2].
  destruct (is_connected_answer e) eqn:Ha.
  - destruct (connected_answer_inv e Ha) as [env ->].
    destruct (deliver_connected_bound env w) as [Hle Hsent].
    destruct (run_sent es _ Hs2 Hsent) as [Hj _]. rewrite Hj. exact Hle.
  - assert (Hview : session_view (fst (deliver' e w)) = session_view w).
    { apply (deliver_quiet e); [destruct (is_stop e); [discriminate|reflexivity]|exact Ha]. }
    rewrite <- (joins_same _ _ Hview). apply IH, Hs2.
Qed.

Lemma stop_resets (env : Env) (w : World) :
  join_message_sent (fst (stop env w)) = false /\
  is_connected (fst (stop env w)) = false.
Proof.
  unfold stop, publish_message, on_client, client_is_connected. run_m. cbn.
  destruct (mqtt_client w) as [c|] eqn:Hc; cbn; rewrite ?Hc; cbn; [|split; reflexivity].
  destruct (transport_connected c); cbn; split; reflexivity.
Qed.

Lemma start_session_view (env : Env) (w : World) :
  session_view (fst (start' env w)) = session_view w.
Proof. apply (keeps_start (unchanged session_view)); intros; reflexivity. Qed.

(** A successful [start] leaves a fresh client, named from [config]. *)
Lemma start_ok (env : Env) (w : World) :
  snd (start' env w) = Ok true ->
  exists c, mqtt_client (fst (start' env w)) = Some c /\
    client_id c = default ("device-" +:+ device_id w) (cfg_client_name (config w)) /\
    username_pw c =
      Some (default (device_id w +:+ "-authnID") (cfg_auth_name (config w)), "").
Proof.
  intros Hok. destruct (start' env w) as [w' r] eqn:Hs. cbn in Hok. subst r. cbn [fst].
  revert Hs. unfold start. unfold bind at 1.
  pose proof (keeps_ensure_certificates (unchanged (fun w => (config w, device_id w)))
                (fun _ _ => eq_refl) (fun _ _ => eq_refl) (fun _ _ => eq_refl)
                load_pem_x509_certificate env w) as H1.
  destruct (ensure_certificates load_pem_x509_certificate env w) as [w1 [[|]|e]];
    cbn in H1; [|run_m; cbn; discriminate|discriminate].
  cbn [negb]. unfold bind at 1.
  pose proof (keeps_validate_setup (unchanged (fun w => (config w, device_id w)))
                (fun _ _ => eq_refl) w1) as H2.
  destruct (validate_setup w1) as [w2 [[|]|e]];
    cbn in H2; [|run_m; cbn; discriminate|discriminate].
  unfold unchanged in *. rewrite H1 in H2. injection H2 as Hcfg Hdid.
  unfold on_client. run_m. cbn. rewrite Hcfg, Hdid.
  destruct (default true (use_tls (cfg_mqtt (config w)))); cbn;
    [destruct (load_cert_chain_ok env); cbn; [|discriminate]|];
    (destruct (connect_ok env); cbn; [|discriminate]);
    intros Heq; injection Heq as <-; eexists; repeat split; reflexivity.
Qed.

(** C2, as the code has it. [join_message_sent] is cleared by [stop] and
    by nothing else: [on_mqtt_disconnect] leaves it as it is, whatever the
    reason code, and only clears [is_connected]; and once set it stays set
    through every run of events without a [stop], so that it is set at
    most once between two stops. *)
Theorem join_flag_reset_only_by_stop (w : World) :
  (forall rc,
     join_message_sent (fst (on_mqtt_disconnect rc w)) = join_message_sent w /\
     is_connected (fst (on_mqtt_disconnect rc w)) = false) /\
  (forall env,
     join_message_sent (fst (stop env w)) = false /\
     is_connected (fst (stop env w)) = false) /\
  (forall es, no_stop es -> join_message_sent w = true ->
     join_message_sent (run' es w) = true).
Proof.
  split; [|split].
  - intros rc. unfold on_mqtt_disconnect. run_m. cbn.
    destruct (rc =? 0)%Z; cbn; split; reflexivity.
  - intros env. apply stop_resets.
  - intros es Hs Hsent. apply (run_sent es w Hs Hsent).
Qed.

(** C7. The join message is published at most once per connected
    episode: in a run of events without a [stop] at most one join message
    is published; after a successful connect no later event of such a run,
    re-connections included, publishes another; and after [stop] followed
    by a successful [start], the next successful connection publishes
    exactly one join message, and nothing before or after it does. *)
Theorem join_published_once (w : World) :
  (forall es, no_stop es -> joins (run' es w) <= joins w + 1) /\
  (forall env es, no_stop es ->
     joins (run' (Connack env 0 :: es) w) = joins (run' [Connack env 0] w)) /\
  (forall env_stop env_start pre env post,
     snd (start' env_start (fst (stop env_stop w))) = Ok true ->
     no_stop pre -> not_connected pre -> no_stop post ->
     joins (run' pre (fst (start' env_start (fst (stop env_stop w)))))
       = joins (fst (start' env_start (fst (stop env_stop w)))) /\
     joins (run' (pre ++ Connack env 0 :: post) (fst (start' env_start (fst (stop env_stop w)))))
       = joins (fst (start' env_start (fst (stop env_stop w)))) + 1).
Proof.
  split; [|split].
  - intros es Hs. apply run_bound, Hs.
  - intros env es Hs. cbn [run].
    destruct (deliver_connected_bound env w) as [_ Hsent].
    apply (run_sent es _ Hs Hsent).
  - intros env_stop env_start pre env post Hok Hpre Hquiet Hpost.
    set (w1 := fst (stop env_stop w)) in *.
    set (w2 := fst (start' env_start w1)) in *.
    assert (Hflag : join_message_sent w2 = false).
    { pose proof (start_session_view env_start w1) as Hv. unfold session_view in Hv.
      injection Hv as _ Hj _ _. fold w2 in Hj. rewrite Hj. apply stop_resets. }
    assert (Hclient : is_Some (mqtt_client w2)).
    { destruct (start_ok env_start w1 Hok) as (c & Hc & _). fold w2 in Hc. eauto. }
    pose proof (run_quiet pre w2 Hpre Hquiet) as Hview.
    split; [apply joins_same, Hview|].
    rewrite run_app. cbn [run].
    set (w3 := run' pre w2) in *.
    assert (Hflag3 : join_message_sent w3 = false).
    { unfold session_view in Hview. congruence. }
    destruct (deliver_connected_first env w3 Hflag3) as (Ho & Hj & Hd & _).
    { apply run_client_stays, Hclient. }
    destruct (run_sent post _ Hpost Hj) as [Hjoins _]. rewrite Hjoins.
    rewrite (joins_announced env w3 _ Hd Ho). rewrite (joins_same _ _ Hview). reflexivity.
Qed.

End SessionFacts.

(** ** Enrollment, all told *)

(** C4, as the code has it. [register_device] never raises and returns
    [None] for a failed request, a status other than 200 and a malformed
    body, a 200 answer without a certificate section included.  When
    there is no body to work on, [device_config] is left as it was; in
    every case the keys other than [client_name] and [auth_name] keep
    their values. *)
Theorem register_device_failure (env : Env) (w : World) :
  (exists bundle, snd (register_device env w) = Ok bundle) /\
  (enrollment_failed env -> snd (register_device env w) = Ok None) /\
  (no_body env -> device_config (fst (register_device env w)) = device_config w) /\
  (forall k : string, k <> "client_name" -> k <> "auth_name" ->
     device_config (fst (register_device env w)) !! k = device_config w !! k).
Proof.
  split; [|split; [|split]].
  - unfold register_device, try_except.
    destruct (bind _ _ w) as [w' [a|e]]; eexists; reflexivity.
  - intros [Hnone|(r & result & Hpost & Hbody & Hbad)].
    + apply register_device_no_body, Hnone.
    + apply (register_device_malformed env w r result Hpost Hbody Hbad).
  - intros Hnone. apply register_device_no_body, Hnone.
  - apply other_keys_register_device.
Qed.

(** C1, at a failing input. The service enrolls [pi-1] as
    "enrolled-client" / "enrolled-auth" and [register_device] records the
    two names in [device_config]; [start] then reads [config], which
    never received them, and creates the client as "device-pi-1" with the
    username "pi-1-authnID". *)
Theorem start_ignores_enrolled_names :
  snd (start sample_pem enrolling (sample_device None)) = Ok true /\
  device_config started !! "client_name" = Some (JStr "enrolled-client") /\
  device_config started !! "auth_name" = Some (JStr "enrolled-auth") /\
  client_id <$> mqtt_client started = Some "device-pi-1" /\
  (mqtt_client started ≫= username_pw) = Some ("pi-1-authnID", "").
Proof. vm_compute. repeat split; reflexivity. Qed.

(** * The properties at the sample worlds *)

(** C1..C10 on concrete inputs: instances of the theorems above, and the
    inputs at which a stronger reading fails. *)

(** C2: after the broker drops the connection, the device is disconnected
    and [join_message_sent] is still set. *)
Lemma join_flag_survives_connection_loss :
  is_connected announced = true /\
  join_message_sent announced = true /\
  is_connected (fst (on_mqtt_disconnect 1 announced)) = false /\
  join_message_sent (fst (on_mqtt_disconnect 1 announced)) = true.
Proof. vm_compute. repeat split; reflexivity. Qed.

Lemma join_flag_reset_only_by_stop_witness :
  join_message_sent (fst (on_mqtt_disconnect 1 announced))
    = join_message_sent announced /\
  join_message_sent (fst (stop enrolling announced)) = false /\
  join_message_sent
    (run sample_pem sample_iso [ConnectionLost 1; Connack enrolling 0] announced) = true.
Proof.
  pose proof (join_flag_reset_only_by_stop sample_pem sample_iso announced)
    as (Hlost & Hstop & Hrun).
  split; [apply (Hlost 1%Z)|].
  split; [apply (Hstop enrolling)|].
  apply (Hrun [ConnectionLost 1; Connack enrolling 0]); vm_compute; reflexivity.
Defined.

(** C3: a valid client certificate with neither private key nor CA
    certificate on disk validates. *)
Lemma validate_certificates_ignores_key_and_ca :
  sample_cert_files !! "key" = Some "/certs/pi-1.key" /\
  fs certificate_only !! "/certs/pi-1.key" = None /\
  sample_cert_files !! "ca" = Some "/certs/ca.crt" /\
  fs certificate_only !! "/certs/ca.crt" = None /\
  snd (validate_certificates sample_pem (sample_env 0 500000000 None)
         sample_cert_files certificate_only) = Ok true.
Proof. vm_compute. repeat split; reflexivity. Qed.

Lemma validate_certificates_fails_closed_witness :
  snd (validate_certificates sample_pem (sample_env 0 500000000 None)
         sample_cert_files (sample_device None)) = Ok false /\
  snd (validate_certificates sample_pem (sample_env 0 2000000000 None)
         sample_cert_files certificate_only) = Ok false /\
  (snd (validate_certificates sample_pem (sample_env 0 500000000 None)
          sample_cert_files certificate_only) = Ok true /\
   expiring_soon ∈ log (fst (validate_certificates sample_pem (sample_env 0 500000000 None)
                                sample_cert_files certificate_only))) /\
  validate_certificates sample_pem (sample_env 0 500000000 None)
    (<["cert" := "/certs/pi-1.crt"]> ∅) certificate_only =
  validate_certificates sample_pem (sample_env 0 500000000 None)
    sample_cert_files certificate_only.
Proof.
  split; [|split; [|split]].
  - apply (proj1 (validate_certificates_fails_closed sample_pem
                    (sample_env 0 500000000 None) (sample_device None) sample_cert_files)).
    vm_compute. reflexivity.
  - apply (proj1 (proj2 (validate_certificates_fails_closed sample_pem
                    (sample_env 0 2000000000 None) certificate_only sample_cert_files))
             sample_certificate).
    + vm_compute. reflexivity.
    + left. cbn. lia.
  - apply (proj1 (proj2 (proj2 (validate_certificates_fails_closed sample_pem
                    (sample_env 0 500000000 None) certificate_only sample_cert_files)))
             sample_certificate).
    + vm_compute. reflexivity.
    + cbn. lia.
    + cbn. unfold timedelta_days. lia.
  - apply (proj2 (proj2 (proj2 (validate_certificates_fails_closed sample_pem
                    (sample_env 0 500000000 None) certificate_only sample_cert_files)))).
    vm_compute. reflexivity.
Defined.

(** C4: a 200 answer with the names and no certificate section yields
    [None], and [client_name] has been written. *)
Lemma register_device_partial_effect :
  snd (register_device (sample_env 0 0 (ok_response names_only_body)) (sample_device None))
    = Ok None /\
  device_config (sample_device None) !! "client_name" = None /\
  device_config (fst (register_device (sample_env 0 0 (ok_response names_only_body))
                        (sample_device None))) !! "client_name"
    = Some (JStr "enrolled-client").
Proof. vm_compute. repeat split; reflexivity. Qed.

Lemma register_device_failure_witness :
  snd (register_device (sample_env 0 0 (ok_response names_only_body)) (sample_device None))
    = Ok None /\
  device_config (fst (register_device (sample_env 0 0 None) (sample_device None)))
    = device_config (sample_device None) /\
  device_config (fst (register_device (sample_env 0 0 (ok_response names_only_body))
                        (sample_device None))) !! "device_id"
    = device_config (sample_device None) !! "device_id".
Proof.
  split; [|split].
  - apply (proj1 (proj2 (register_device_failure
                           (sample_env 0 0 (ok_response names_only_body)) (sample_device None)))).
    right. eexists. exists names_only_body.
    split; [reflexivity|]. split; [reflexivity|]. right. vm_compute. reflexivity.
  - apply (proj1 (proj2 (proj2 (register_device_failure
                           (sample_env 0 0 None) (sample_device None))))).
    exact I.
  - apply (proj2 (proj2 (proj2 (register_device_failure
                           (sample_env 0 0 (ok_response names_only_body)) (sample_device None))))).
    + discriminate.
    + discriminate.
Defined.

(** C5: at the draw 0.0 the probability check passes. *)
Lemma should_respond_at_draw_zero :
  other_device (sample_device (Some never_by_chance)) (peer_message "hello") /\
  type_allowed (sample_device (Some never_by_chance)) (peer_message "hello") /\
  no_content_filters (sample_device (Some never_by_chance)) /\
  probability (criteria_of (sample_device (Some never_by_chance))) = Some 0%Q /\
  default_respond (criteria_of (sample_device (Some never_by_chance))) = Some true /\
  (0 <= random (sample_env 0 0 None) < 1)%Q /\
  snd (_should_respond (sample_env 0 0 None) (peer_message "hello")
         (sample_device (Some never_by_chance))) = Ok true.
Proof.
  repeat split; try reflexivity.
  cbn. apply Qle_refl.
Qed.

Lemma should_respond_probability_zero_witness :
  snd (_should_respond (sample_env (1#2) 0 None) (peer_message "hello")
         (sample_device (Some never_by_chance))) = Ok false /\
  snd (_should_respond (sample_env 0 0 None) (peer_message "hello")
         (sample_device (Some never_by_chance))) = Ok true.
Proof.
  split.
  - apply (proj1 (should_respond_probability_zero (sample_env (1#2) 0 None)
                    (sample_device (Some never_by_chance)) (peer_message "hello") 0%Q
                    eq_refl eq_refl eq_refl eq_refl (Qeq_refl 0) eq_refl)).
    reflexivity.
  - apply (proj2 (should_respond_probability_zero (sample_env 0 0 None)
                    (sample_device (Some never_by_chance)) (peer_message "hello") 0%Q
                    eq_refl eq_refl eq_refl eq_refl (Qeq_refl 0) eq_refl)).
    reflexivity.
Defined.

Lemma validate_certificates_boundary_witness :
  snd (validate_certificates sample_pem (sample_env 0 2000000000 None)
         sample_cert_files certificate_only) = Ok false /\
  snd (validate_certificates sample_pem (sample_env 0 1000000000 None)
         sample_cert_files certificate_only) = Ok false /\
  snd (validate_certificates sample_pem (sample_env 0 999000000 None)
         sample_cert_files certificate_only) = Ok true.
Proof.
  split; [|split].
  - apply (proj1 (validate_certificates_boundary sample_pem
                    (sample_env 0 2000000000 None) certificate_only sample_cert_files
                    sample_certificate eq_refl)).
    cbn. lia.
  - apply (proj1 (proj2 (validate_certificates_boundary sample_pem
                    (sample_env 0 1000000000 None) certificate_only sample_cert_files
                    sample_certificate eq_refl))).
    reflexivity.
  - apply (proj2 (proj2 (validate_certificates_boundary sample_pem
                    (sample_env 0 999000000 None) certificate_only sample_cert_files
                    sample_certificate eq_refl))).
    + reflexivity.
    + cbn. lia.
Defined.

Lemma join_published_once_witness :
  joins (run sample_pem sample_iso [ConnectionLost 1; Connack enrolling 0] announced)
    <= joins announced + 1 /\
  joins (run sample_pem sample_iso
           (Connack enrolling 0 :: [ConnectionLost 1; Connack enrolling 0]) started)
    = joins (run sample_pem sample_iso [Connack enrolling 0] started) /\
  joins (run sample_pem sample_iso
           ([ConnectionLost 1; Connack enrolling 5] ++
            Connack enrolling 0 :: [ConnectionLost 1; Connack enrolling 0])
           (fst (start sample_pem enrolling (fst (stop enrolling announced)))))
    = joins (fst (start sample_pem enrolling (fst (stop enrolling announced)))) + 1.
Proof.
  split; [|split].
  - apply (proj1 (join_published_once sample_pem sample_iso announced)).
    vm_compute. reflexivity.
  - apply (proj1 (proj2 (join_published_once sample_pem sample_iso started))).
    vm_compute. reflexivity.
  - apply (proj2 (proj2 (join_published_once sample_pem sample_iso announced))
             enrolling enrolling [ConnectionLost 1; Connack enrolling 5]
             enrolling [ConnectionLost 1; Connack enrolling 0]);
      vm_compute; reflexivity.
Defined.


Lemma on_mqtt_message_missing_field_witness :
  snd (on_mqtt_message sample_iso enrolling (Json (JObj content_only)) started) = Ok tt /\
  message_history (fst (on_mqtt_message sample_iso enrolling (Json (JObj content_only)) started))
    = message_history started.
Proof.
  pose proof (on_mqtt_message_missing_field sample_iso enrolling started (JObj content_only))
    as H.
  destruct H as (Hret & Hhist & _).
  - left. vm_compute. reflexivity.
  - split; [exact Hret|exact Hhist].
Defined.

Lemma on_mqtt_message_default_type_witness :
  exists message,
    msg_message_type message = JStr "general" /\
    last (message_history
            (fst (on_mqtt_message sample_iso enrolling (Json (JObj untyped_message)) started)))
      = Some message /\
    workers (fst (on_mqtt_message sample_iso enrolling (Json (JObj untyped_message)) started))
      = workers started ++ [message].
Proof.
  destruct (on_mqtt_message_default_type sample_iso enrolling started untyped_message
              (JStr "pi-2") "hi")
    as (message & _ & Htype & _ & _ & _ & _ & Hlast & Hworker).
  - vm_compute. reflexivity.
  - vm_compute. reflexivity.
  - vm_compute. reflexivity.
  - vm_compute. exact I.
  - exists message. split; [exact Htype|]. split; [exact Hlast|].
    apply Hworker; vm_compute; reflexivity.
Defined.

(** * Further properties *)

(** ** The receive path, in general *)

Section ReceiveFacts.

Variable fromisoformat : string -> option datetime.

Lemma on_mqtt_message_history (env : Env) (msg_payload : wire) (w : World) :
  message_history (fst (on_mqtt_message fromisoformat env msg_payload w)) = message_history w \/
  exists message,
    message_history (fst (on_mqtt_message fromisoformat env msg_payload w))
      = appended (message_history w) message.
Proof.
  unfold on_mqtt_message, decode, json_loads.
  destruct msg_payload as [| |payload]; [left; reflexivity|left; reflexivity|].
  run_m. cbn -[_should_respond _handle_response from_dict].
  destruct (contains "device_id" payload) as [[|]|e1];
    cbn -[_should_respond _handle_response from_dict];
    [| left; reflexivity | left; destruct e1; reflexivity].
  destruct (contains "content" payload) as [[|]|e2];
    cbn -[_should_respond _handle_response from_dict];
    [| left; reflexivity | left; destruct e2; reflexivity].
  destruct (from_dict fromisoformat env payload) as [message|e3];
    cbn -[_should_respond _handle_response];
    [| left; destruct e3; reflexivity].
  destruct (slice_to (msg_content message) 100) as [sl|e4];
    cbn -[_should_respond _handle_response];
    [| left; destruct e4; reflexivity].
  right. exists message. unfold appended.
  destruct (bool_decide (100 < length (message_history w ++ [message])));
    cbn -[_should_respond _handle_response];
    match goal with
    | |- context [_should_respond env ?msg ?w2] =>
        pose proof (keeps_should_respond (unchanged message_history)
                      (fun _ _ => eq_refl) env msg w2) as Hhist;
        destruct (_should_respond env msg w2) as [w3 [[|]|e]]
    end;
    unfold unchanged in Hhist; cbn in *; try (destruct e; cbn); exact Hhist.
Qed.

Lemma appended_length (history : list MqttMessage) (message : MqttMessage) :
  length history <= 100 -> length (appended history message) <= 100.
Proof.
  intros Hlen. unfold appended. case_bool_decide as Hover.
  - rewrite length_drop, length_app. cbn. lia.
  - lia.
Qed.

Lemma from_dict_fields (env : Env) (m : gmap string json) (message : MqttMessage) :
  from_dict fromisoformat env (JObj m) = Ok message ->
  is_Some (m !! "device_id") /\ is_Some (m !! "content").
Proof.
  unfold from_dict, rbind, subscript.
  destruct (m !! "device_id") as [d|]; [|discriminate].
  destruct (m !! "content") as [c|]; [|discriminate].
  intros _. split; eauto.
Qed.

(** X2. A message that decodes and whose content can be sliced is
    recorded whatever the policy then decides: it becomes the newest
    entry of the history, and when the history already holds 100 entries
    the oldest one is evicted. *)
Theorem on_mqtt_message_records (env : Env) (w : World) (m : gmap string json)
    (message : MqttMessage) (shown : json) :
  from_dict fromisoformat env (JObj m) = Ok message ->
  slice_to (msg_content message) 100 = Ok shown ->
  message_history (fst (on_mqtt_message fromisoformat env (Json (JObj m)) w))
    = appended (message_history w) message /\
  (length (message_history w) < 100 ->
   message_history (fst (on_mqtt_message fromisoformat env (Json (JObj m)) w))
     = message_history w ++ [message]) /\
  (length (message_history w) = 100 ->
   message_history (fst (on_mqtt_message fromisoformat env (Json (JObj m)) w))
     = drop 1 (message_history w) ++ [message]).
Proof.
  intros Hfrom Hslice.
  destruct (from_dict_fields env m message Hfrom) as [[d Hd] [c Hc]].
  assert (Hhist : message_history (fst (on_mqtt_message fromisoformat env (Json (JObj m)) w))
                  = appended (message_history w) message).
  { unfold on_mqtt_message, decode, json_loads. run_m.
    cbn -[_should_respond _handle_response from_dict].
    rewrite Hd, Hc. cbn -[_should_respond _handle_response from_dict].
    rewrite Hfrom. cbn -[_should_respond _handle_response]. rewrite Hslice.
    cbn -[_should_respond _handle_response]. unfold appended.
    destruct (bool_decide (100 < length (message_history w ++ [message])));
      cbn -[_should_respond _handle_response];
      match goal with
      | |- context [_should_respond env ?msg ?w2] =>
          pose proof (keeps_should_respond (unchanged message_history)
                        (fun _ _ => eq_refl) env msg w2) as Hkeep;
          destruct (_should_respond env msg w2) as [w3 [[|]|e]]
      end;
      unfold unchanged in Hkeep; cbn in *; try (destruct e; cbn); exact Hkeep. }
  rewrite Hhist. split; [reflexivity|]. unfold appended. split; intros Hlen.
  - rewrite bool_decide_false; [reflexivity|]. rewrite length_app. cbn. lia.
  - rewrite bool_decide_true; [|rewrite length_app; cbn; lia].
    apply drop_app_le. lia.
Qed.

(** X3. The receive handler returns for every payload that is text: a
    JSON value of any shape and a text that is not JSON are handled
    inside it, the latter without touching history, threads or outbox.
    A payload that is not valid UTF-8 makes it raise, since the handler
    of last resort decodes the payload again for its log line. *)
Theorem on_mqtt_message_raises_only_on_bad_encoding (env : Env) (w : World) :
  (forall payload,
     snd (on_mqtt_message fromisoformat env (Json payload) w) = Ok tt) /\
  (snd (on_mqtt_message fromisoformat env NotJson w) = Ok tt /\
   message_history (fst (on_mqtt_message fromisoformat env NotJson w)) = message_history w /\
   workers (fst (on_mqtt_message fromisoformat env NotJson w)) = workers w /\
   outbox (fst (on_mqtt_message fromisoformat env NotJson w)) = outbox w) /\
  (snd (on_mqtt_message fromisoformat env NotUnicode w) = Raise UnicodeDecodeError /\
   message_history (fst (on_mqtt_message fromisoformat env NotUnicode w)) = message_history w /\
   workers (fst (on_mqtt_message fromisoformat env NotUnicode w)) = workers w /\
   outbox (fst (on_mqtt_message fromisoformat env NotUnicode w)) = outbox w).
Proof.
  split; [|split].
  - intros payload. unfold on_mqtt_message, try_except.
    destruct (bind _ _ w) as [w' [[]|e]]; [reflexivity|].
    destruct e; reflexivity.
  - repeat split; reflexivity.
  - repeat split; reflexivity.
Qed.

End ReceiveFacts.

(** ** The history over a session *)

Section HistoryFacts.

Variable load_pem_x509_certificate : string -> option Certificate.
Variable fromisoformat : string -> option datetime.

Lemma deliver_history (e : event) (w : World) :
  message_history (fst (deliver load_pem_x509_certificate fromisoformat e w)) = message_history w \/
  exists message,
    message_history (fst (deliver load_pem_x509_certificate fromisoformat e w))
      = appended (message_history w) message.
Proof.
  destruct e as [env rc|rc|env p|env|env]; cbn [deliver].
  - left. revert w. change (keeps (unchanged message_history)
      (when (rc =? 0)%Z (on_client (set_transport_connected true)) ;; on_mqtt_connect env rc)).
    frame.
    + apply keeps_on_client; try exact _. intros; reflexivity.
    + apply keeps_on_mqtt_connect; try exact _; intros; reflexivity.
  - left. revert w. change (keeps (unchanged message_history)
      (on_client (set_transport_connected false) ;; on_mqtt_disconnect rc)).
    frame.
    + apply keeps_on_client; try exact _. intros; reflexivity.
    + apply keeps_on_mqtt_disconnect; try exact _; intros; reflexivity.
  - apply on_mqtt_message_history.
  - left. revert w. change (keeps (unchanged message_history)
      (_ <- start load_pem_x509_certificate env ;; ret tt)).
    frame. apply keeps_start; try exact _; intros; reflexivity.
  - left. revert w. change (keeps (unchanged message_history) (stop env)).
    apply keeps_stop; try exact _; intros; reflexivity.
Qed.

(** X1. The message history never exceeds 100 entries: whatever the
    transport delivers, and in whatever order, a history of at most 100
    entries stays one. *)
Theorem history_bounded (es : list event) (w : World) :
  length (message_history w) <= 100 ->
  length (message_history (run load_pem_x509_certificate fromisoformat es w)) <= 100.
Proof.
  revert w. induction es as [|e es IH]; intros w Hlen; [exact Hlen|].
  cbn [run]. apply IH.
  destruct (deliver_history e w) as [Hsame|[message Happ]].
  - rewrite Hsame. exact Hlen.
  - rewrite Happ. apply appended_length, Hlen.
Qed.

End HistoryFacts.

(** ** The response policy, case by case *)

(** X4. The device never answers itself: a message that carries the
    device's own id is refused, whatever its type and content, the
    configured criteria and the random draw. *)
Theorem should_respond_own_message (env : Env) (w : World) (message : MqttMessage) :
  py_eq_str (msg_device_id message) (device_id w) = true ->
  snd (_should_respond env message w) = Ok false.
Proof.
  intros Hown. unfold _should_respond. run_m. cbn. rewrite Hown. reflexivity.
Qed.

(** X5. A message whose type is not in the allow-list is refused before
    its content is looked at: content filters, probability and
    [default_respond] play no part, and a content that is not text does
    no harm. *)
Theorem should_respond_type_not_allowed (env : Env) (w : World) (message : MqttMessage) :
  py_in_strs (msg_message_type message)
             (default ["general"] (message_types (criteria_of w))) = false ->
  snd (_should_respond env message w) = Ok false.
Proof.
  unfold criteria_of. intros Htype. unfold _should_respond. run_m. cbn.
  destruct (py_eq_str (msg_device_id message) (device_id w)); [reflexivity|].
  cbn. rewrite Htype. reflexivity.
Qed.



(** X7. Deciding whether to respond changes nothing but the log. *)
Theorem should_respond_only_logs (env : Env) (message : MqttMessage) (w : World) :
  except_log (fst (_should_respond env message w)) = except_log w.
Proof.
  apply (keeps_should_respond (unchanged except_log)). intros; reflexivity.
Qed.

(** ** Enrollment, when it succeeds *)


(** ** The certificate store, writing and reading *)

Section StoreFacts.

Variable load_pem_x509_certificate : string -> option Certificate.

(** X9. Validating certificates reads; it changes nothing but the log
    (no file is created, changed or removed). *)
Theorem validate_certificates_only_logs (env : Env) (cert_files : gmap string string)
    (w : World) :
  except_log (fst (validate_certificates load_pem_x509_certificate env cert_files w))
    = except_log w.
Proof.
  apply (keeps_validate_certificates (unchanged except_log)). intros; reflexivity.
Qed.

Lemma string_length_append (s t : string) :
  String.length (s +:+ t) = String.length s + String.length t.
Proof. induction s as [|c s IH]; [reflexivity|]. simpl. f_equal. exact IH. Qed.

Lemma path_join_inj (dir a b : string) : path_join dir a = path_join dir b -> a = b.
Proof.
  unfold path_join. intros H. apply String.app_inj, String.app_inj in H. exact H.
Qed.


Lemma key_ca_differ (dir did : string) : key_file dir did <> ca_file dir.
Proof.
  unfold key_file, ca_file. intros H. apply path_join_inj in H.
  destruct did as [|a [|b [|c rest]]]; cbn in H; try discriminate H.
  injection H as _ _ _ H. apply (f_equal String.length) in H.
  rewrite string_length_append in H. cbn in H. lia.
Qed.



(** X11. Saving is not all-or-nothing: when the client certificate has
    been written and writing the private key fails (the key is not text,
    or the write is refused), [save_certificates] returns the empty dict
    and the certificate file stays behind with the new text. *)
Theorem save_certificates_partial (env : Env) (cert_data : gmap string json)
    (did : string) (w : World) (pem : string) (key : json) :
  cert_data !! "client_cert" = Some (JStr pem) ->
  write_fails env (cert_file (cert_dir w) did) = false ->
  fs w !! cert_file (cert_dir w) did <> Some Dir ->
  cert_data !! "client_key" = Some key ->
  (forall s, key <> JStr s) \/ write_fails env (key_file (cert_dir w) did) = true ->
  snd (save_certificates env cert_data did w) = Ok ∅ /\
  exists mode r,
    fs (fst (save_certificates env cert_data did w)) !! cert_file (cert_dir w) did
      = Some (File pem mode r).
Proof.
  intros Hcert Hwrite Hdir Hkey Hfail.
  unfold save_certificates, write_text, chmod.
  fold (cert_file (cert_dir w) did) (key_file (cert_dir w) did) (ca_file (cert_dir w)).
  run_m. cbn.
  fold (cert_file (cert_dir w) did) (key_file (cert_dir w) did) (ca_file (cert_dir w)).
  rewrite Hcert, Hwrite, Hkey. cbn.
  destruct (fs w !! cert_file (cert_dir w) did) as [[|data mode r]|] eqn:Hfs;
    [exfalso; apply Hdir; reflexivity| |]; cbn;
    (destruct key as [| | | | s | |]; cbn;
     [..|destruct Hfail as [Hfail|Hfail];
           [exfalso; apply (Hfail s); reflexivity|rewrite Hfail; cbn]| |]);
    (split; [reflexivity|]); do 2 eexists; apply lookup_insert_eq.
Qed.

(** ** The identity manager *)

Lemma register_device_failed (env : Env) (w : World) :
  enrollment_failed env -> snd (register_device env w) = Ok None.
Proof.
  intros [Hnone|(r & result & Hpost & Hbody & Hbad)].
  - apply register_device_no_body, Hnone.
  - apply (register_device_malformed env w r result Hpost Hbody Hbad).
Qed.

(** X12. With a usable identity on disk, [ensure_certificates] returns
    [True] and changes nothing but the log, whatever the enrollment
    service would answer: no registration takes place and no file is
    written. *)
Theorem ensure_certificates_stored (env : Env) (w : World) :
  stored_identity load_pem_x509_certificate env w = true ->
  snd (ensure_certificates load_pem_x509_certificate env w) = Ok true /\
  except_log (fst (ensure_certificates load_pem_x509_certificate env w)) = except_log w.
Proof.
  unfold stored_identity. intros Hstored.
  apply andb_true_iff in Hstored as [Hstored Hvalid].
  apply andb_true_iff in Hstored as [Hstored Hca].
  apply andb_true_iff in Hstored as [Hcert Hkey].
  destruct (read_certificate load_pem_x509_certificate w (cert_files_of w)) as [cert|] eqn:Hread;
    [|discriminate].
  apply andb_true_iff in Hvalid as [Hafter Hbefore].
  apply negb_true_iff in Hafter, Hbefore.
  pose proof (validate_readable load_pem_x509_certificate env w (cert_files_of w) cert Hread)
    as Hv.
  rewrite Hafter, Hbefore in Hv.
  unfold cert_files_of, cert_file, key_file, ca_file in *.
  unfold ensure_certificates, path_exists. run_m.
  cbn -[validate_certificates register_device save_certificates path_join].
  rewrite Hcert, Hkey, Hca.
  cbn -[validate_certificates register_device save_certificates path_join].
  rewrite Hv.
  destruct (not_valid_after cert <=? utcnow env + timedelta_days 7)%Z;
    split; reflexivity.
Qed.

Lemma validate_result (env : Env) (w : World) (cert_files : gmap string string) :
  snd (validate_certificates load_pem_x509_certificate env cert_files w)
    = Ok match read_certificate load_pem_x509_certificate w cert_files with
         | Some cert =>
             negb (not_valid_after cert <=? utcnow env)%Z &&
             negb (utcnow env <? not_valid_before cert)%Z
         | None => false
         end.
Proof.
  destruct (read_certificate load_pem_x509_certificate w cert_files) as [cert|] eqn:Hread.
  - rewrite (validate_readable load_pem_x509_certificate env w cert_files cert Hread).
    destruct (not_valid_after cert <=? utcnow env)%Z; [reflexivity|].
    destruct (utcnow env <? not_valid_before cert)%Z; [reflexivity|].
    destruct (not_valid_after cert <=? utcnow env + timedelta_days 7)%Z; reflexivity.
  - apply validate_unreadable, Hread.
Qed.

(** X13. Without a usable identity on disk, a failed enrollment makes
    [ensure_certificates] return [False], and no file has been written,
    changed or removed. *)
Theorem ensure_certificates_enrollment_failed (env : Env) (w : World) :
  stored_identity load_pem_x509_certificate env w = false ->
  enrollment_failed env ->
  snd (ensure_certificates load_pem_x509_certificate env w) = Ok false /\
  fs (fst (ensure_certificates load_pem_x509_certificate env w)) = fs w.
Proof.
  unfold stored_identity. intros Hstored Hfailed.
  pose proof (validate_result env w (cert_files_of w)) as Hv.
  pose proof (keeps_validate_certificates (unchanged fs) (fun _ _ => eq_refl)
                load_pem_x509_certificate env (cert_files_of w) w) as Hvfs.
  unfold cert_files_of, cert_file, key_file, ca_file in *.
  unfold ensure_certificates, path_exists. run_m.
  cbn -[validate_certificates register_device save_certificates path_join].
  destruct (bool_decide _ && bool_decide _ && bool_decide _) eqn:Hexist;
    cbn -[validate_certificates register_device save_certificates path_join] in *.
  - destruct (validate_certificates _ _ _ w) as [w1 [valid|e]];
      cbn -[register_device save_certificates path_join] in *; [|discriminate Hv].
    injection Hv as Hv. rewrite <- Hv in Hstored. subst valid.
    cbn -[register_device save_certificates path_join].
    match goal with
    | |- context [register_device env ?w2] =>
        pose proof (register_device_failed env w2 Hfailed) as Hreg;
        pose proof (keeps_register_device (unchanged fs) (fun _ _ => eq_refl)
                      (fun _ _ => eq_refl) env w2) as Hrfs;
        destruct (register_device env w2) as [w3 r3]
    end.
    cbn in Hreg. subst r3. unfold unchanged in *. cbn in *. split; [reflexivity|congruence].
  - match goal with
    | |- context [register_device env ?w2] =>
        pose proof (register_device_failed env w2 Hfailed) as Hreg;
        pose proof (keeps_register_device (unchanged fs) (fun _ _ => eq_refl)
                      (fun _ _ => eq_refl) env w2) as Hrfs;
        destruct (register_device env w2) as [w3 r3]
    end.
    cbn in Hreg. subst r3. unfold unchanged in *. cbn in *. split; [reflexivity|congruence].
Qed.




End StoreFacts.

(** ** Starting and stopping *)


Lemma stop_outcome (env : Env) (w : World) :
  snd (stop env w) = Ok tt /\
  running (fst (stop env w)) = false /\
  client_is_connected (fst (stop env w)) = false /\
  loop_running <$> mqtt_client (fst (stop env w)) = (fun _ => false) <$> mqtt_client w /\
  outbox (fst (stop env w))
    = (if client_is_connected w then outbox w ++ [leave_message env w] else outbox w).
Proof.
  unfold stop, publish_message, on_client, client_is_connected, leave_message. run_m. cbn.
  destruct (mqtt_client w) as [c|] eqn:Hc; cbn; rewrite ?Hc; cbn;
    [|repeat split; reflexivity].
  destruct (transport_connected c); cbn; rewrite ?Hc; cbn; repeat split; reflexivity.
Qed.


Section StartFacts.

Variable load_pem_x509_certificate : string -> option Certificate.

Lemma ensure_certificates_returns (env : Env) (w : World) :
  exists b, snd (ensure_certificates load_pem_x509_certificate env w) = Ok b.
Proof.
  unfold ensure_certificates, try_except.
  destruct (bind _ _ w) as [w' [b|e]]; eexists; reflexivity.
Qed.

Lemma validate_setup_returns (w : World) : exists b, snd (validate_setup w) = Ok b.
Proof.
  unfold validate_setup, path_exists. run_m. cbn.
  repeat (match goal with
          | |- context [bool_decide ?P] => destruct (bool_decide P)
          end; cbn);
    eexists; reflexivity.
Qed.

Lemma start_cases (env : Env) (w : World) :
  (snd (start load_pem_x509_certificate env w) = Ok true /\
   running (fst (start load_pem_x509_certificate env w)) = true /\
   exists c, mqtt_client (fst (start load_pem_x509_certificate env w)) = Some c /\
     loop_running c = true /\ transport_connected c = false /\ subscriptions c = []) \/
  (snd (start load_pem_x509_certificate env w) = Ok false /\
   running (fst (start load_pem_x509_certificate env w)) = running w /\
   idle_client (mqtt_client w) (mqtt_client (fst (start load_pem_x509_certificate env w)))).
Proof.
  destruct (start load_pem_x509_certificate env w) as [w' r] eqn:Hs. cbn [fst snd].
  revert Hs. unfold start. unfold bind at 1.
  pose proof (keeps_ensure_certificates (unchanged (fun w => (running w, mqtt_client w)))
                (fun _ _ => eq_refl) (fun _ _ => eq_refl) (fun _ _ => eq_refl)
                load_pem_x509_certificate env w) as H1.
  destruct (ensure_certificates_returns env w) as [b1 Hb1].
  destruct (ensure_certificates load_pem_x509_certificate env w) as [w1 r1].
  cbn in H1, Hb1. subst r1. unfold unchanged in H1. injection H1 as Hrun1 Hcl1.
  destruct b1; cbn [negb].
  2:{ run_m. cbn. intros [= <- <-]. right. cbn. repeat split; try assumption.
      left. assumption. }
  unfold bind at 1.
  pose proof (keeps_validate_setup (unchanged (fun w => (running w, mqtt_client w)))
                (fun _ _ => eq_refl) w1) as H2.
  destruct (validate_setup_returns w1) as [b2 Hb2].
  destruct (validate_setup w1) as [w2 r2].
  cbn in H2, Hb2. subst r2. unfold unchanged in H2. injection H2 as Hrun2 Hcl2.
  destruct b2; cbn [negb].
  2:{ run_m. cbn. intros [= <- <-]. right. cbn. repeat split; try congruence.
      left. congruence. }
  unfold on_client. run_m. cbn.
  destruct (default true (use_tls (cfg_mqtt (config w2)))); cbn;
    [destruct (load_cert_chain_ok env); cbn|];
    try (destruct (connect_ok env); cbn);
    intros [= <- <-]; cbn;
    first [ left; repeat split; eexists; repeat split; reflexivity
          | right; repeat split; [congruence|];
            right; eexists; repeat split; reflexivity ].
Qed.


(** X17. There is no queueing: a manual message sent after a successful
    [start] and before the broker has answered is dropped, with an
    error in the log and nothing published. *)
Theorem send_manual_message_before_connack (env env' : Env) (w : World)
    (content message_type : string) :
  snd (start load_pem_x509_certificate env w) = Ok true ->
  snd (send_manual_message env' content message_type
         (fst (start load_pem_x509_certificate env w))) = Ok tt /\
  outbox (fst (send_manual_message env' content message_type
                 (fst (start load_pem_x509_certificate env w)))) = outbox w /\
  last (log (fst (send_manual_message env' content message_type
                    (fst (start load_pem_x509_certificate env w)))))
    = Some (ERROR, "MQTT client not connected").
Proof.
  intros Hok.
  pose proof (keeps_start (unchanged outbox)
                (fun _ _ => eq_refl) (fun _ _ => eq_refl) (fun _ _ => eq_refl)
                (fun _ _ => eq_refl) (fun _ _ => eq_refl) (fun _ _ => eq_refl)
                load_pem_x509_certificate env w) as Hout.
  unfold unchanged in Hout.
  destruct (start_cases env w) as [(_ & _ & c & Hc & _ & Hoff & _)|(Hfalse & _)];
    [|congruence].
  destruct (start load_pem_x509_certificate env w) as [w' r]. cbn [fst snd] in *.
  unfold send_manual_message, publish_message, client_is_connected. run_m. cbn.
  rewrite Hc, Hoff. cbn. repeat split; [exact Hout|apply last_snoc].
Qed.

End StartFacts.

(** ** The wire form, and the device's own traffic *)

Section WireFacts.

Variable load_pem_x509_certificate : string -> option Certificate.
Variable fromisoformat : string -> option datetime.
Variable isoformat : datetime -> string.

(** X18. Serializing a message and parsing it back gives the message
    itself: id, device id, content, type and timestamp, the fresh UUID
    and clock reading of the parse being overwritten.  The timestamp has
    to survive [isoformat] and [fromisoformat]. *)
Theorem from_dict_to_dict (env : Env) (message : MqttMessage) :
  fromisoformat (replace_Z (isoformat (msg_timestamp message)))
    = Some (msg_timestamp message) ->
  from_dict fromisoformat env (JObj (to_dict isoformat message)) = Ok message.
Proof.
  intros Hiso. destruct message as [i d c t ty].
  unfold from_dict, to_dict, rbind, subscript, dict_get, contains. cbn in *.
  repeat (rewrite lookup_insert_eq || rewrite lookup_insert_ne by done). cbn.
  repeat (rewrite lookup_insert_eq || rewrite lookup_insert_ne by done). cbn.
  rewrite Hiso. cbn.
  repeat (rewrite lookup_insert_eq || rewrite lookup_insert_ne by done). cbn.
  repeat (rewrite lookup_insert_eq || rewrite lookup_insert_ne by done). cbn.
  reflexivity.
Qed.

Lemma from_dict_device_id (env : Env) (m : gmap string json) (message : MqttMessage) :
  from_dict fromisoformat env (JObj m) = Ok message ->
  m !! "device_id" = Some (msg_device_id message).
Proof.
  unfold from_dict, rbind, subscript, dict_get, contains.
  destruct (m !! "device_id") as [d|]; [|discriminate].
  destruct (m !! "content") as [c|]; [|discriminate]. cbn.
  destruct (m !! "timestamp") as [[| | | | s | |]|]; cbn; try discriminate;
    [destruct (fromisoformat (replace_Z s)); cbn; [|discriminate]|];
    (destruct (m !! "id") as [v|]; cbn; intros [= <-]; reflexivity).
Qed.

Lemma should_respond_own (env : Env) (w : World) (message : MqttMessage) :
  msg_device_id message = JStr (device_id w) ->
  snd (_should_respond env message w) = Ok false.
Proof.
  intros Hown. unfold _should_respond. run_m. cbn. rewrite Hown. cbn.
  rewrite String.eqb_refl. reflexivity.
Qed.

Lemma own_payload_no_worker (env : Env) (w : World) (m : gmap string json) :
  m !! "device_id" = Some (JStr (device_id w)) ->
  workers (fst (on_mqtt_message fromisoformat env (Json (JObj m)) w)) = workers w.
Proof.
  intros Hd.
  unfold on_mqtt_message, decode, json_loads. run_m.
  cbn -[_should_respond _handle_response from_dict].
  rewrite Hd. cbn -[_should_respond _handle_response from_dict].
  destruct (m !! "content") as [c|]; cbn -[_should_respond _handle_response from_dict];
    [|reflexivity].
  pose proof (from_dict_device_id env m) as Hid.
  destruct (from_dict fromisoformat env (JObj m)) as [message|e3];
    cbn -[_should_respond _handle_response]; [|destruct e3; reflexivity].
  specialize (Hid message eq_refl). rewrite Hd in Hid. injection Hid as Hid.
  destruct (slice_to (msg_content message) 100) as [sl|e4];
    cbn -[_should_respond _handle_response]; [|destruct e4; reflexivity].
  destruct (bool_decide (100 < length (message_history w ++ [message])));
    cbn -[_should_respond _handle_response];
    match goal with
    | |- context [_should_respond env ?msg ?w2] =>
        pose proof (keeps_should_respond (unchanged workers)
                      (fun _ _ => eq_refl) env msg w2) as Hkeep;
        pose proof (should_respond_own env w2 msg (eq_sym Hid)) as Hno;
        destruct (_should_respond env msg w2) as [w3 r3]
    end;
    cbn in Hno; subst r3; unfold unchanged in Hkeep; cbn in *; exact Hkeep.
Qed.

Lemma deliver_own (e : event) (w : World) :
  Forall (own w) (outbox w) ->
  device_id (fst (deliver load_pem_x509_certificate fromisoformat e w)) = device_id w /\
  Forall (own w) (outbox (fst (deliver load_pem_x509_certificate fromisoformat e w))).
Proof.
  intros Hown.
  destruct (is_stop e) eqn:Hstop.
  - destruct e as [| | | |env]; try discriminate. cbn [deliver].
    pose proof (keeps_stop (unchanged device_id)
                  (fun _ _ => eq_refl) (fun _ _ => eq_refl) (fun _ _ => eq_refl)
                  (fun _ _ => eq_refl) (fun _ _ => eq_refl) (fun _ _ => eq_refl)
                  env w) as Hid.
    destruct (stop_outcome env w) as (_ & _ & _ & _ & Hout).
    split; [exact Hid|]. rewrite Hout.
    destruct (client_is_connected w); [|exact Hown].
    apply Forall_app. split; [exact Hown|]. apply Forall_singleton. reflexivity.
  - destruct (is_connected_answer e) eqn:Hanswer.
    + destruct (connected_answer_inv e Hanswer) as [env ->].
      destruct (join_message_sent w) eqn:Hsent.
      * pose proof (deliver_connected_sent load_pem_x509_certificate fromisoformat env w Hsent)
          as Hview.
        unfold session_view in Hview. injection Hview as Ho _ Hd _.
        rewrite (Ho : outbox (fst (deliver _ _ (Connack env 0) w)) = _).
        split; [exact Hd|exact Hown].
      * destruct (mqtt_client w) as [c|] eqn:Hc.
        -- destruct (deliver_connected_first load_pem_x509_certificate fromisoformat env w Hsent)
             as (Ho & _ & Hd & _); [eauto|].
           rewrite (Ho : outbox (fst (deliver _ _ (Connack env 0) w)) = _).
           split; [exact Hd|].
           apply Forall_app. split; [exact Hown|]. apply Forall_singleton. reflexivity.
        -- cbn [deliver].
           unfold on_mqtt_connect, publish_message, on_client, client_is_connected. run_m.
           cbn. rewrite Hsent, Hc. cbn. split; [reflexivity|exact Hown].
    + pose proof (deliver_quiet load_pem_x509_certificate fromisoformat e Hstop Hanswer w)
        as Hview.
      unfold unchanged, session_view in Hview. injection Hview as Ho _ Hd _.
      rewrite (Ho : outbox (fst (deliver _ _ e w)) = _).
      split; [exact Hd|exact Hown].
Qed.

Lemma run_own (es : list event) (w : World) :
  Forall (own w) (outbox w) ->
  device_id (run load_pem_x509_certificate fromisoformat es w) = device_id w /\
  Forall (own w) (outbox (run load_pem_x509_certificate fromisoformat es w)).
Proof.
  revert w. induction es as [|e es IH]; intros w Hown; [split; [reflexivity|exact Hown]|].
  cbn [run]. destruct (deliver_own e w Hown) as [Hd Ho].
  destruct (IH (fst (deliver load_pem_x509_certificate fromisoformat e w))) as [Hd' Ho'].
  { unfold own in *. rewrite Hd. exact Ho. }
  split; [congruence|]. unfold own in *. rewrite Hd in Ho'. exact Ho'.
Qed.

(** X19. No feedback loop: every message the session publishes (the
    join and leave announcements) carries the device's own id, and when
    the broker echoes back a message that carries the device's own id,
    the receive handler returns and starts no response. *)
Theorem own_traffic_is_never_answered (es : list event) (w : World) :
  Forall (own w) (outbox w) ->
  Forall (own w) (outbox (run load_pem_x509_certificate fromisoformat es w)) /\
  forall message env w',
    msg_device_id message = JStr (device_id w') ->
    snd (on_mqtt_message fromisoformat env (Json (JObj (to_dict isoformat message))) w')
      = Ok tt /\
    workers (fst (on_mqtt_message fromisoformat env
                    (Json (JObj (to_dict isoformat message))) w'))
      = workers w'.
Proof.
  intros Hown. destruct (run_own es w Hown) as [_ Hall].
  split; [exact Hall|].
  intros message env w' Hid. split.
  - unfold on_mqtt_message, try_except.
    destruct (bind _ _ w') as [w'' [[]|e]]; [reflexivity|destruct e; reflexivity].
  - apply own_payload_no_worker.
    unfold to_dict. rewrite <- Hid.
    repeat (rewrite lookup_insert_eq || rewrite lookup_insert_ne by done). reflexivity.
Qed.

End WireFacts.

(** ** The response dispatcher *)

Section DispatchFacts.

Variable executable : string.
Variable subprocess_run : list string -> string -> Z -> subprocess_result.
Variable py_repr : json -> string.
Variable format : string -> json -> json -> string -> string -> result string.

Lemma validate_setup_result (w : World) :
  snd (validate_setup w) = Ok (setup_ok w) /\
  except_log (fst (validate_setup w)) = except_log w.
Proof.
  unfold validate_setup, setup_ok, path_exists. run_m. cbn.
  repeat (match goal with
          | |- context [bool_decide ?P] => destruct (bool_decide P)
          end; cbn);
    split; reflexivity.
Qed.

Lemma generate_response_result (prompt : string) (kwargs : InferenceParams) (w : World) :
  snd (generate_response executable subprocess_run prompt kwargs w)
    = Ok (if setup_ok w then
            match subprocess_run
                    (inference_command executable
                       (path_join (bitnet_path w) "run_inference.py") prompt kwargs)
                    (bitnet_path w) (default 1000%Z (timeout kwargs)) with
            | Completed returncode stdout _ =>
                if (returncode =? 0)%Z then Some (strip stdout) else None
            | _ => None
            end
          else None) /\
  except_log (fst (generate_response executable subprocess_run prompt kwargs w))
    = except_log w.
Proof.
  destruct (generate_response executable subprocess_run prompt kwargs w) as [w' r] eqn:Hg.
  cbn [fst snd]. revert Hg.
  unfold generate_response. unfold bind at 1.
  destruct (validate_setup_result w) as [Hres Hlog].
  destruct (validate_setup w) as [w1 r1]. cbn in Hres, Hlog. subst r1.
  unfold except_log in Hlog.
  injection Hlog as Hcfg Hdid Hrun Hcl Hh Hic Hj Hdir Hurl Hdc Hbp Hfs Ho Hw.
  destruct (setup_ok w); cbn [negb].
  - run_m. cbn. rewrite Hbp.
    destruct (subprocess_run _ _ _) as [rc out err| |]; cbn;
      [destruct (rc =? 0)%Z; cbn|..];
      intros [= <- <-]; (split; [reflexivity|]); unfold except_log; cbn; congruence.
  - cbn. intros [= <- <-]. split; [reflexivity|]. unfold except_log. congruence.
Qed.


Lemma last_three_idem {A} (context : list A) :
  last_three (last_three context) = last_three context.
Proof.
  unfold last_three. rewrite length_drop.
  replace (length context - (length context - 3) - 3) with 0 by lia.
  reflexivity.
Qed.

(** X21. Only the three most recent context messages reach the prompt:
    [_generate_prompt] gives the same result, or raises the same
    exception, for a context and for its last three entries. *)
Theorem generate_prompt_last_three (prompt_template : option string)
    (message : MqttMessage) (context : list MqttMessage) (w : World) :
  length (last_three context) <= 3 /\
  _generate_prompt py_repr format prompt_template message context w
    = _generate_prompt py_repr format prompt_template message (last_three context) w.
Proof.
  split.
  - unfold last_three. rewrite length_drop. lia.
  - unfold _generate_prompt, context_string. rewrite last_three_idem.
    destruct context as [|m1 context]; [reflexivity|].
    destruct (last_three (m1 :: context)) as [|m2 rest] eqn:Hlast; [|reflexivity].
    exfalso. apply (f_equal length) in Hlast. unfold last_three in Hlast.
    rewrite length_drop in Hlast. cbn in Hlast. lia.
Qed.

(** X22. The response thread never raises and only reads the device: the
    history, the session flags, the client and the files are as before.
    It publishes at most one message, a "response" that carries the
    device's own id and a non-empty content, and only when the transport
    is connected; a negative [response_delay] makes [time.sleep] raise,
    and then nothing is published. *)
Theorem response_worker_effect (env : Env) (prompt_template : option string)
    (bitnet_params : InferenceParams) (response_delay : option Q)
    (message : MqttMessage) (w : World) :
  snd (response_worker executable subprocess_run py_repr format env prompt_template
         bitnet_params response_delay message w) = Ok tt /\
  except_log_and_outbox
    (fst (response_worker executable subprocess_run py_repr format env prompt_template
            bitnet_params response_delay message w)) = except_log_and_outbox w /\
  (outbox (fst (response_worker executable subprocess_run py_repr format env
                  prompt_template bitnet_params response_delay message w)) = outbox w \/
   exists content,
     content <> "" /\ client_is_connected w = true /\
     outbox (fst (response_worker executable subprocess_run py_repr format env
                    prompt_template bitnet_params response_delay message w))
       = outbox w ++ [response_message env w content]) /\
  ((default 2 response_delay < 0)%Q ->
   outbox (fst (response_worker executable subprocess_run py_repr format env
                  prompt_template bitnet_params response_delay message w)) = outbox w).
Proof.
  destruct (response_worker executable subprocess_run py_repr format env prompt_template
              bitnet_params response_delay message w) as [w' r] eqn:Hw.
  cbn [fst snd]. revert Hw.
  unfold response_worker, _generate_prompt, sleep, publish_message, client_is_connected,
    response_message, except_log_and_outbox.
  run_m. cbn -[generate_response].
  destruct (format _ _ _ _ _) as [prompt|e]; run_m; cbn -[generate_response];
    [|intros Heq; apply pair_equal_spec in Heq as [<- <-];
      cbn; repeat split; try reflexivity; left; reflexivity].
  match goal with
  | |- context [generate_response executable subprocess_run prompt bitnet_params ?w1] =>
      destruct (generate_response_result prompt bitnet_params w1) as [Hres Hlog];
      destruct (generate_response executable subprocess_run prompt bitnet_params w1)
        as [w2 r2]
  end.
  cbn [fst snd] in Hres, Hlog.
  destruct r2 as [resp|e2]; [clear Hres|discriminate Hres].
  unfold except_log in Hlog. cbn in Hlog.
  injection Hlog as Hcfg Hdid Hrun Hcl Hh Hic Hj Hdir Hurl Hdc Hbp Hfs Ho Hwk.
  destruct resp as [content|]; run_m; cbn;
    [|intros Heq; apply pair_equal_spec in Heq as [<- <-];
     cbn; repeat split; try congruence; left; congruence].
  destruct (String.eqb_spec content "") as [Hempty|Hfull]; run_m; cbn;
    [intros Heq; apply pair_equal_spec in Heq as [<- <-];
     cbn; repeat split; try congruence; left; congruence|].
  destruct (Qlt_le_dec (default 2%Q response_delay) 0) as [Hneg|Hpos]; run_m; cbn;
    [intros Heq; apply pair_equal_spec in Heq as [<- <-];
     cbn; repeat split; try congruence; left; congruence|].
  rewrite ?Hcl, ?Hcfg, ?Hdid.
  destruct (mqtt_client w) as [c|]; run_m; cbn; rewrite ?Hcl, ?Hcfg, ?Hdid;
    [destruct (transport_connected c); run_m; cbn; rewrite ?Hcl, ?Hcfg, ?Hdid|];
    intros Heq; apply pair_equal_spec in Heq as [<- <-]; cbn; repeat split; try congruence;
    try (left; congruence);
    try (intros Hlt; exfalso; revert Hpos; apply Qlt_not_le, Hlt).
  right. exists content. repeat split; [exact Hfull|congruence].
Qed.

End DispatchFacts.

(** ** The hardware address *)

Lemma hex_digit_inj (x y : Z) :
  (0 <= x < 16)%Z -> (0 <= y < 16)%Z -> hex_digit x = hex_digit y -> x = y.
Proof.
  intros Hx Hy H.
  assert (Ex : (x = 0 \/ x = 1 \/ x = 2 \/ x = 3 \/ x = 4 \/ x = 5 \/ x = 6 \/ x = 7 \/ x = 8 \/ x = 9 \/ x = 10 \/ x = 11 \/ x = 12 \/ x = 13 \/ x = 14 \/ x = 15)%Z) by lia.
  assert (Ey : (y = 0 \/ y = 1 \/ y = 2 \/ y = 3 \/ y = 4 \/ y = 5 \/ y = 6 \/ y = 7 \/ y = 8 \/ y = 9 \/ y = 10 \/ y = 11 \/ y = 12 \/ y = 13 \/ y = 14 \/ y = 15)%Z) by lia.
  clear Hx Hy.
  repeat (destruct Ex as [Ex|Ex]); subst x;
    repeat (destruct Ey as [Ey|Ey]); subst y;
    first [reflexivity | (cbv in H; discriminate H)].
Qed.

Lemma format_02x_inj (a b : Z) :
  (0 <= a < 256)%Z -> (0 <= b < 256)%Z -> format_02x a = format_02x b -> a = b.
Proof.
  intros Ha Hb H. unfold format_02x in H. injection H as Hhi Hlo.
  assert (Hhi' : (a / 16 = b / 16)%Z)
    by (apply hex_digit_inj; [Z.div_mod_to_equations; lia..|exact Hhi]).
  assert (Hlo' : (a mod 16 = b mod 16)%Z)
    by (apply hex_digit_inj; [Z.div_mod_to_equations; lia..|exact Hlo]).
  Z.div_mod_to_equations. lia.
Qed.

Lemma mac_byte_range (mac i : Z) : (0 <= Z.land (Z.shiftr mac i) 255 < 256)%Z.
Proof.
  change 255%Z with (Z.ones 8). rewrite Z.land_ones by lia.
  apply Z.mod_pos_bound. lia.
Qed.

Lemma mac_byte_value (mac i : Z) :
  (0 <= i)%Z -> Z.land (Z.shiftr mac i) 255 = ((mac / 2 ^ i) mod 256)%Z.
Proof.
  intros Hi. change 255%Z with (Z.ones 8). rewrite Z.land_ones by lia.
  rewrite Z.shiftr_div_pow2 by exact Hi. reflexivity.
Qed.

(** X23. [_get_mac_address] writes the node number as six two-digit
    hexadecimal groups separated by colons, 17 characters in all, and
    different 48-bit node numbers give different addresses. *)
Theorem get_mac_address_faithful (mac1 mac2 : Z) :
  String.length (_get_mac_address (Some mac1)) = 17 /\
  ((0 <= mac1 < 2 ^ 48)%Z -> (0 <= mac2 < 2 ^ 48)%Z ->
   _get_mac_address (Some mac1) = _get_mac_address (Some mac2) -> mac1 = mac2).
Proof.
  split; [reflexivity|].
  intros H1 H2 Heq.
  unfold _get_mac_address, mac_bytes in Heq. cbn [fmap list_fmap String.concat] in Heq.
  unfold format_02x in Heq. cbn [String.append] in Heq.
  injection Heq as a1 a0 b1 b0 c1 c0 d1 d0 e1 e0 f1 f0.
  assert (Hbyte : forall i, (0 <= i)%Z ->
            hex_digit (Z.land (Z.shiftr mac1 i) 255 / 16)
              = hex_digit (Z.land (Z.shiftr mac2 i) 255 / 16) ->
            hex_digit (Z.land (Z.shiftr mac1 i) 255 mod 16)
              = hex_digit (Z.land (Z.shiftr mac2 i) 255 mod 16) ->
            ((mac1 / 2 ^ i) mod 256 = (mac2 / 2 ^ i) mod 256)%Z).
  { intros i Hi Hhi Hlo. rewrite <- !mac_byte_value by exact Hi.
    apply format_02x_inj; [apply mac_byte_range|apply mac_byte_range|].
    unfold format_02x. rewrite Hhi, Hlo. reflexivity. }
  pose proof (Hbyte 40%Z ltac:(lia) a1 a0) as Ha.
  pose proof (Hbyte 32%Z ltac:(lia) b1 b0) as Hb.
  pose proof (Hbyte 24%Z ltac:(lia) c1 c0) as Hc.
  pose proof (Hbyte 16%Z ltac:(lia) d1 d0) as Hd.
  pose proof (Hbyte 8%Z ltac:(lia) e1 e0) as He.
  pose proof (Hbyte 0%Z ltac:(lia) f1 f0) as Hf.
  clear - H1 H2 Ha Hb Hc Hd He Hf.
  change (2 ^ 48)%Z with 281474976710656%Z in *.
  change (2 ^ 40)%Z with 1099511627776%Z in *.
  change (2 ^ 32)%Z with 4294967296%Z in *.
  change (2 ^ 24)%Z with 16777216%Z in *.
  change (2 ^ 16)%Z with 65536%Z in *.
  change (2 ^ 8)%Z with 256%Z in *.
  change (2 ^ 0)%Z with 1%Z in *.
  Z.div_mod_to_equations. lia.
Qed.

(** ** A device called "ca" *)

(** X24. The file names collide for one device id: the client
    certificate of the device "ca" is [ca.crt], the name of the CA
    certificate.  When [save_certificates] reports a bundle with both as
    saved, that file holds the CA certificate and the client certificate
    is lost.  Only a configured id can be "ca": a generated one starts
    with "bitnet-". *)
Theorem save_certificates_ca_collision (env : Env) (cert_data : gmap string json)
    (w : World) (files : gmap string string) (pem ca : string)
    (cfg : Config) (hostname mac_suffix : string) :
  (cert_file (cert_dir w) "ca" = ca_file (cert_dir w)) /\
  (cert_data !! "client_cert" = Some (JStr pem) ->
   cert_data !! "ca_cert" = Some (JStr ca) ->
   snd (save_certificates env cert_data "ca" w) = Ok files -> files <> ∅ ->
   exists mode r,
     fs (fst (save_certificates env cert_data "ca" w)) !! cert_file (cert_dir w) "ca"
       = Some (File ca mode r)) /\
  (_generate_device_id cfg hostname mac_suffix = "ca" -> cfg_device_id cfg = Some "ca").
Proof.
  split; [reflexivity|]. split.
  - intros Hcert Hca Hres Hfiles.
    pose proof (key_ca_differ (cert_dir w) "ca") as Hka.
    assert (Hc : path_join (cert_dir w) ("ca" +:+ ".crt") = ca_file (cert_dir w))
      by reflexivity.
    change (cert_file (cert_dir w) "ca") with (ca_file (cert_dir w)).
    destruct (save_certificates env cert_data "ca" w) as [w' res] eqn:Hsave.
    cbn in Hres. subst res. cbn [fst].
    unfold save_certificates, write_text, chmod in Hsave.
    run_m. cbn -[String.append] in Hsave.
    fold (key_file (cert_dir w) "ca") (ca_file (cert_dir w)) in Hsave.
    rewrite Hcert, Hca, ?Hc in Hsave. cbn -[String.append] in Hsave.
    repeat (match type of Hsave with
            | context [match cert_data !! ?k with _ => _ end] =>
                destruct (cert_data !! k) as [?|] eqn:?
            | context [if write_fails env ?p then _ else _] =>
                destruct (write_fails env p) eqn:?
            | context [<[?p := _]> _ !! ?p] => rewrite lookup_insert_eq in Hsave
            | context [<[?p := _]> _ !! ?q] => rewrite (lookup_insert_ne _ p q) in Hsave by done
            | context [match fs w !! ?p with _ => _ end] =>
                destruct (fs w !! p) as [[|? ? ?]|] eqn:?
            | context [match ?v with JStr _ => _ | _ => _ end] => destruct v
            end; cbn -[String.append] in Hsave);
      apply pair_equal_spec in Hsave as [<- Hfiles'];
      injection Hfiles' as <-; try (exfalso; apply Hfiles; reflexivity);
      cbn; do 2 eexists; apply lookup_insert_eq.
  - unfold _generate_device_id.
    destruct (cfg_device_id cfg) as [custom|]; [|discriminate].
    destruct (String.eqb_spec custom ""); [discriminate|]. intros ->. reflexivity.
Qed.

(** * The further properties at the sample worlds *)

(** X1: one more message on a full history. *)
Lemma history_bounded_witness :
  length (message_history crowded) = 100 /\
  length (message_history
            (run sample_pem sample_iso
                 [Message enrolling (Json (JObj (to_dict sample_isoformat stamped_message)));
                  ConnectionLost 1; Message enrolling NotUnicode]
                 crowded)) <= 100.
Proof.
  split; [vm_compute; reflexivity|].
  apply (history_bounded sample_pem sample_iso).
  vm_compute. lia.
Defined.

(** X2: the 101st message evicts the oldest one. *)
Lemma on_mqtt_message_records_witness :
  message_history
    (fst (on_mqtt_message sample_iso enrolling
            (Json (JObj (to_dict sample_isoformat stamped_message))) crowded))
    = drop 1 (message_history crowded) ++ [stamped_message].
Proof.
  refine (proj2 (proj2 (on_mqtt_message_records sample_iso enrolling crowded
                          (to_dict sample_isoformat stamped_message) stamped_message
                          (JStr "hello") _ _)) _);
    vm_compute; reflexivity.
Defined.

(** X4: an echo that asks for help, at a device that answers such. *)
Lemma should_respond_own_message_witness :
  snd (_should_respond (sample_env 0 0 None) echo_message (sample_device (Some help_only)))
    = Ok false.
Proof.
  apply (should_respond_own_message (sample_env 0 0 None) (sample_device (Some help_only))
           echo_message).
  reflexivity.
Defined.

(** X5: a presence announcement, at a device that answers "general". *)
Lemma should_respond_type_not_allowed_witness :
  snd (_should_respond (sample_env 0 0 None) presence_message (sample_device None))
    = Ok false.
Proof.
  apply (should_respond_type_not_allowed (sample_env 0 0 None) (sample_device None)
           presence_message).
  reflexivity.
Defined.




(** X11: the key file is refused after the certificate is written. *)
Lemma save_certificates_partial_witness :
  snd (save_certificates key_refused sample_bundle "pi-1" (sample_device None)) = Ok ∅ /\
  exists mode r,
    fs (fst (save_certificates key_refused sample_bundle "pi-1" (sample_device None)))
      !! cert_file (cert_dir (sample_device None)) "pi-1" = Some (File "PEM" mode r).
Proof.
  refine (save_certificates_partial key_refused sample_bundle "pi-1" (sample_device None)
            "PEM" (JStr "KEY") _ _ _ _ _).
  - vm_compute. reflexivity.
  - vm_compute. reflexivity.
  - vm_compute. discriminate.
  - vm_compute. reflexivity.
  - right. vm_compute. reflexivity.
Defined.

(** X12: the enrolled device, the service being down. *)
Lemma ensure_certificates_stored_witness :
  snd (ensure_certificates sample_pem (sample_env 0 500000000 None) enrolled) = Ok true /\
  except_log (fst (ensure_certificates sample_pem (sample_env 0 500000000 None) enrolled))
    = except_log enrolled.
Proof.
  apply (ensure_certificates_stored sample_pem (sample_env 0 500000000 None) enrolled).
  vm_compute. reflexivity.
Defined.

(** X13: a first start, the service being down. *)
Lemma ensure_certificates_enrollment_failed_witness :
  snd (ensure_certificates sample_pem (sample_env 0 500000000 None) (sample_device None))
    = Ok false /\
  fs (fst (ensure_certificates sample_pem (sample_env 0 500000000 None) (sample_device None)))
    = fs (sample_device None).
Proof.
  apply (ensure_certificates_enrollment_failed sample_pem (sample_env 0 500000000 None)
           (sample_device None)).
  - vm_compute. reflexivity.
  - left. exact I.
Defined.


(** X17: a manual message right after [start]. *)
Lemma send_manual_message_before_connack_witness :
  snd (send_manual_message enrolling "hello" "manual" started) = Ok tt /\
  outbox (fst (send_manual_message enrolling "hello" "manual" started))
    = outbox (sample_device None) /\
  last (log (fst (send_manual_message enrolling "hello" "manual" started)))
    = Some (ERROR, "MQTT client not connected").
Proof.
  apply (send_manual_message_before_connack sample_pem enrolling enrolling
           (sample_device None) "hello" "manual").
  vm_compute. reflexivity.
Defined.

(** X18: the stamped message. *)
Lemma from_dict_to_dict_witness :
  from_dict sample_iso enrolling (JObj (to_dict sample_isoformat stamped_message))
    = Ok stamped_message.
Proof.
  apply (from_dict_to_dict sample_iso sample_isoformat enrolling stamped_message).
  vm_compute. reflexivity.
Defined.

(** X19: a session that announces itself and leaves. *)
Lemma own_traffic_is_never_answered_witness :
  length (outbox (run sample_pem sample_iso [Connack enrolling 0; Stop enrolling] started))
    = 2 /\
  Forall (own started)
    (outbox (run sample_pem sample_iso [Connack enrolling 0; Stop enrolling] started)) /\
  workers (fst (on_mqtt_message sample_iso enrolling
                  (Json (JObj (to_dict sample_isoformat echo_message))) announced))
    = workers announced.
Proof.
  split; [vm_compute; reflexivity|].
  destruct (own_traffic_is_never_answered sample_pem sample_iso sample_isoformat
              [Connack enrolling 0; Stop enrolling] started) as [Hout Hecho].
  - change (outbox started) with (@nil (string * MqttMessage)). apply Forall_nil_2.
  - split; [exact Hout|].
    apply (Hecho echo_message enrolling announced). reflexivity.
Defined.


(** X22: a negative [response_delay]. *)
Lemma response_worker_effect_witness :
  client_is_connected announced = true /\
  outbox (fst (response_worker "python3" sample_run sample_repr sample_format enrolling
                 None no_params (Some (-1)%Q) (peer_message "hi") announced))
    = outbox announced.
Proof.
  split; [vm_compute; reflexivity|].
  apply (proj2 (proj2 (proj2 (response_worker_effect "python3" sample_run sample_repr
                                sample_format enrolling None no_params (Some (-1)%Q)
                                (peer_message "hi") announced)))).
  reflexivity.
Defined.

(** X23: two node numbers that differ in one byte. *)
Lemma get_mac_address_faithful_witness :
  String.length (_get_mac_address (Some 73588229205%Z)) = 17 /\
  _get_mac_address (Some 1%Z) <> _get_mac_address (Some 256%Z).
Proof.
  split.
  - apply (proj1 (get_mac_address_faithful 73588229205 0)).
  - intros H.
    apply (proj2 (get_mac_address_faithful 1 256)) in H; [discriminate H|lia|lia].
Defined.

(** X24: the sample bundle saved for a device called "ca". *)
Lemma save_certificates_ca_collision_witness :
  exists mode r,
    fs (fst (save_certificates enrolling sample_bundle "ca" (sample_device None)))
      !! cert_file (cert_dir (sample_device None)) "ca" = Some (File "CA" mode r).
Proof.
  refine (proj1 (proj2 (save_certificates_ca_collision enrolling sample_bundle
                          (sample_device None)
                          (<["ca" := "/certs/ca.crt"]>
                             (<["key" := "/certs/ca.key"]>
                                (<["cert" := "/certs/ca.crt"]> ∅)))
                          "PEM" "CA" (sample_config None) "" "")) _ _ _ _).
  - vm_compute. reflexivity.
  - vm_compute. reflexivity.
  - vm_compute. reflexivity.
  - intros H. apply (f_equal (fun m : gmap string string => m !! "ca")) in H.
    vm_compute in H. discriminate H.
Defined.
